(** * AMS operator charm: configuration reconciliation and certificate issuance

    A shallow embedding of [src/charm.py] (class [AmsOperatorCharm]) and the
    properties its specification states about the two event handlers
    [_on_config_changed] and [_on_lxd_integrator_joined].

    Layout:
    - [Py]      the fragment of Python the handlers rely on: configuration
                values, truthiness, [int()], [str.split], exceptions;
    - [Tls]     a symbolic model of the certificate library;
    - [Ams]     the configuration dataclasses of the [ams] module;
    - [Exec]    a state-and-exception monad over the observable world of the
                charm (unit status, calls made on the snap, trace of external
                calls, key generator);
    - [Charm]   the handlers, transcribed statement by statement;
    - [Sample]  concrete inputs, [Wf] the side conditions of the statements;
    - [Juju]    the remaining handlers ([_on_install], [_on_etcd_available])
                and the observers registered by [__init__];
    - [Obs]     the vocabulary of the further statements;
    - the theorems. *)

From Stdlib Require Import ZArith Ascii String List Bool Lia.
From stdpp Require Import base option list strings gmap pretty.

Import ListNotations.
Local Open Scope string_scope.
Local Open Scope Z_scope.

(* ===================================================================== *)
(** ** Python values and built-ins *)
(* ===================================================================== *)

Module Py.

(** The values a Juju configuration option can hold ([bool], [int], [str];
    float options are left out, none of the options read here is one). *)
Inductive PyVal : Type :=
| VBool (b : bool)
| VInt (z : Z)
| VStr (s : string).

(** The exceptions the handlers can raise: [KeyError key] from a subscript,
    [ValueError literal] from [int()] on the string [literal] (the text of the
    message, which quotes the literal, is not kept), [ModelError port] from
    [ops] when the model refuses to open [port], and the plain [Exception]
    with the message the charm gives it. *)
Inductive PyExn : Type :=
| KeyError (key : string)
| ValueError (literal : string)
| ModelError (port : Z)
| Exception (msg : string).

(** [bool(v)], as used by [if v:] and [not v]. *)
Definition truthy (v : PyVal) : bool :=
  match v with
  | VBool b => b
  | VInt z => negb (z =? 0)
  | VStr s => negb (String.eqb s "")
  end.

(** [bool(s)] for a string. *)
Definition str_truthy (s : string) : bool := negb (String.eqb s "").

(** [format(v, "")], as used by an f-string replacement field. *)
Definition to_str (v : PyVal) : string :=
  match v with
  | VBool true => "True"
  | VBool false => "False"
  | VInt z => pretty z
  | VStr s => s
  end.

(** *** [int(v)] *)

Definition digit_of_ascii (c : ascii) : option Z :=
  let n := Z.of_N (N_of_ascii c) in
  if (48 <=? n) && (n <=? 57) then Some (n - 48) else None.

(** C [isspace]: tab, newline, vertical tab, form feed, carriage return
    and space. *)
Definition is_space (c : ascii) : bool :=
  let n := Z.of_N (N_of_ascii c) in
  ((9 <=? n) && (n <=? 13)) || (n =? 32).

Fixpoint all_space (s : string) : bool :=
  match s with
  | EmptyString => true
  | String c rest => is_space c && all_space rest
  end.

Fixpoint lstrip (s : string) : string :=
  match s with
  | EmptyString => EmptyString
  | String c rest => if is_space c then lstrip rest else s
  end.

(** The default of [sys.get_int_max_str_digits()]: [int()] refuses a string
    with more decimal digits. *)
Definition max_str_digits : Z := 4300.

(** Decimal digits with single underscores between digits, followed by
    optional white space. [prev_digit] tells whether the previous
    character was a digit, [seen] how many digits were read. *)
Fixpoint digits_value (s : string) (acc : Z) (prev_digit : bool) (seen : Z)
  : option Z :=
  match s with
  | EmptyString =>
      if prev_digit && (seen <=? max_str_digits) then Some acc else None
  | String c rest =>
      match digit_of_ascii c with
      | Some d => digits_value rest (10 * acc + d) true (seen + 1)
      | None =>
          if Ascii.eqb c "_"
          then (if prev_digit then digits_value rest acc false seen else None)
          else if prev_digit && all_space s && (seen <=? max_str_digits)
               then Some acc else None
      end
  end.

(** All characters are ASCII. *)
Fixpoint is_ascii (s : string) : bool :=
  match s with
  | EmptyString => true
  | String c rest => (Z.of_N (N_of_ascii c) <? 128) && is_ascii rest
  end.

(** [int(s)] for a string of ASCII characters, base 10: surrounding white
    space, an optional sign, then the digits. For a string with other
    characters Python consults the Unicode database of the interpreter
    (white space and decimal digits of every script); that table is not part
    of this development, and such a string is refused here. What is stated
    below of a configuration whose ports [int()] refuses is stated of
    configurations whose port options are ASCII ([Wf.plain_ports]). *)
Definition int_of_string (s : string) : option Z :=
  match lstrip s with
  | String "+" rest => digits_value rest 0 false 0
  | String "-" rest => Z.opp <$> digits_value rest 0 false 0
  | t => digits_value t 0 false 0
  end.

Definition to_int (v : PyVal) : PyExn + Z :=
  match v with
  | VBool b => inr (if b then 1 else 0)
  | VInt z => inr z
  | VStr s =>
      match int_of_string s with
      | Some z => inr z
      | None => inl (ValueError s)
      end
  end.

(** *** [s.split(sep)] for a one-character separator *)

Fixpoint split (sep : ascii) (s : string) : list string :=
  match s with
  | EmptyString => [EmptyString]
  | String c rest =>
      if Ascii.eqb c sep then EmptyString :: split sep rest
      else match split sep rest with
           | [] => [String c EmptyString]
           | piece :: pieces => String c piece :: pieces
           end
  end.

(** [sep.join(l)], the inverse of [split]. *)
Fixpoint join (sep : ascii) (l : list string) : string :=
  match l with
  | [] => EmptyString
  | [piece] => piece
  | piece :: rest => piece ++ String sep (join sep rest)
  end.

(** Number of occurrences of a character. *)
Fixpoint count (c : ascii) (s : string) : nat :=
  match s with
  | EmptyString => 0%nat
  | String d rest => ((if Ascii.eqb d c then 1 else 0) + count c rest)%nat
  end.

(** [bool(l)] for a list. *)
Definition list_truthy {A} (l : list A) : bool :=
  match l with
  | [] => false
  | _ :: _ => true
  end.

End Py.

(* ===================================================================== *)
(** ** The certificate library, symbolically *)
(* ===================================================================== *)

Module Tls.

(** Modelled from the spec: the functions [generate_private_key],
    [generate_ca], [generate_csr] and [generate_certificate] of
    [charms.tls_certificates_interface.v3.tls_certificates] are not part of
    the sources. Each artefact is the symbolic term of the call that made
    it, holding that call's arguments; a private key also holds the serial
    of the generator call that produced it, so that two calls give two
    keys ("a separate leaf private key, distinct from the CA key"). *)
Record PrivateKey : Type := mkPrivateKey {
  key_size : Z;
  key_serial : nat
}.

Record CaCertificate : Type := mkCa {
  ca_private_key : PrivateKey;
  ca_subject : string
}.

Record Csr : Type := mkCsr {
  csr_private_key : PrivateKey;
  csr_subject : string;
  csr_sans_dns : list string;
  csr_sans_ip : list string
}.

Record Certificate : Type := mkCertificate {
  cert_csr : Csr;
  cert_ca : CaCertificate;
  cert_ca_key : PrivateKey
}.

#[global] Instance PrivateKey_eq_dec : EqDecision PrivateKey.
Proof. solve_decision. Defined.
#[global] Instance CaCertificate_eq_dec : EqDecision CaCertificate.
Proof. solve_decision. Defined.
#[global] Instance Csr_eq_dec : EqDecision Csr.
Proof. solve_decision. Defined.
#[global] Instance Certificate_eq_dec : EqDecision Certificate.
Proof. solve_decision. Defined.

(** Modelled from the spec: "the leaf certificate verifies against the CA
    certificate": the certificate names that CA as its issuer and was
    signed with the private key the CA certificate was derived from. *)
Definition verifies (cert : Certificate) (ca : CaCertificate) : bool :=
  bool_decide (cert_ca cert = ca)
  && bool_decide (cert_ca_key cert = ca_private_key ca).

(** The calls made on the library, as they appear in the trace. *)
Inductive Call : Type :=
| GeneratePrivateKey (key : PrivateKey)
| GenerateCa (ca : CaCertificate)
| GenerateCsr (csr : Csr)
| GenerateCertificate (cert : Certificate).

End Tls.

(* ===================================================================== *)
(** ** The configuration dataclasses of the [ams] module *)
(* ===================================================================== *)

Module Ams.
Import Py.

(** Modelled from the spec: the dataclasses [ETCDConfig], [BackendConfig],
    [PrometheusConfig] and [ServiceConfig] of the [ams] module are not part
    of the sources. Their fields are the keyword arguments [charm.py]
    passes; [servers] starts empty and [metrics_server] starts unset. *)
Record ETCDConfig : Type := mkETCDConfig {
  use_embedded : PyVal;
  servers : list string
}.

Definition new_ETCDConfig (use_embedded : PyVal) : ETCDConfig :=
  {| use_embedded := use_embedded; servers := [] |}.

Definition set_servers (c : ETCDConfig) (l : list string) : ETCDConfig :=
  {| use_embedded := use_embedded c; servers := l |}.

(** Modelled from the spec: the property [ETCDConfig.is_ready] of the [ams]
    module: "is_ready iff (use_embedded is true) OR (servers is
    non-empty)". *)
Definition is_ready (c : ETCDConfig) : bool :=
  truthy (use_embedded c) || list_truthy (servers c).

Record BackendConfig : Type := mkBackendConfig {
  port_range : PyVal;
  lxd_project : PyVal;
  force_tls12 : PyVal;
  use_network_acl : PyVal;
  metrics_server : option string
}.

Definition new_BackendConfig (port_range lxd_project force_tls12 use_network_acl : PyVal)
  : BackendConfig :=
  {| port_range := port_range; lxd_project := lxd_project;
     force_tls12 := force_tls12; use_network_acl := use_network_acl;
     metrics_server := None |}.

Definition set_metrics_server (c : BackendConfig) (endpoint : string) : BackendConfig :=
  {| port_range := port_range c; lxd_project := lxd_project c;
     force_tls12 := force_tls12 c; use_network_acl := use_network_acl c;
     metrics_server := Some endpoint |}.

Record PrometheusConfig : Type := mkPrometheusConfig {
  prom_ip : string;
  prom_port : Z;
  tls_cert_path : PyVal;
  tls_key_path : PyVal;
  basic_auth_username : PyVal;
  basic_auth_password : PyVal;
  extra_labels : PyVal;
  metrics_path : PyVal
}.

Record ServiceConfig : Type := mkServiceConfig {
  ip : string;
  port : Z;
  log_level : PyVal;
  metrics : PrometheusConfig;
  backend : BackendConfig;
  store : ETCDConfig
}.

End Ams.

(* ===================================================================== *)
(** ** The world of the charm and the monad of its handlers *)
(* ===================================================================== *)

Module Exec.
Import Py.

(** [ops.model] statuses the charm sets. *)
Inductive Status : Type :=
| ActiveStatus
| BlockedStatus (msg : string)
| WaitingStatus (msg : string).

(** What a handler reads: the configuration mapping [self.config], the etcd
    endpoint consumer [self.etcd] and the addresses of the [juju-info]
    binding. *)
Record Env : Type := mkEnv {
  config : gmap string PyVal;
  etcd_is_available : bool;
  etcd_config : gmap string string;
  public_ip : string;
  private_ip : string
}.

(** External calls that leave no state behind, in the order made. *)
Inductive Event : Type :=
| EtcdIsAvailable
| EtcdGetConfig
| LogReceivedServers (servers : list string)
| TlsCall (c : Tls.Call).

(** What a handler changes. *)
Record World : Type := mkWorld {
  unit_status : Status;
  snap_config : option Ams.ServiceConfig;
  snap_location : option (PyVal * PyVal);
  snap_lxd : option (Tls.Certificate * Tls.PrivateKey);
  unit_ports : list Z;
  relation_data : gmap Z (gmap string (list Tls.Certificate));
  next_key : nat;
  trace : list Event
}.

Inductive Res (A : Type) : Type :=
| Ok (a : A)
| Raise (e : PyExn).
Arguments Ok {A} a.
Arguments Raise {A} e.

Definition M (A : Type) : Type := World -> Res A * World.

Definition ret {A} (a : A) : M A := fun w => (Ok a, w).

Definition bind {A B} (m : M A) (k : A -> M B) : M B :=
  fun w =>
    match m w with
    | (Ok a, w') => k a w'
    | (Raise e, w') => (Raise e, w')
    end.

Definition raise {A} (e : PyExn) : M A := fun w => (Raise e, w).

Definition of_sum {A} (r : PyExn + A) : M A :=
  match r with
  | inl e => raise e
  | inr a => ret a
  end.

Definition emit (e : Event) : M unit :=
  fun w =>
    (Ok tt,
     {| unit_status := unit_status w; snap_config := snap_config w;
        snap_location := snap_location w; snap_lxd := snap_lxd w;
        unit_ports := unit_ports w; relation_data := relation_data w;
        next_key := next_key w; trace := trace w ++ [e] |}).

(** [self.unit.status = s] *)
Definition set_status (s : Status) : M unit :=
  fun w =>
    (Ok tt,
     {| unit_status := s; snap_config := snap_config w;
        snap_location := snap_location w; snap_lxd := snap_lxd w;
        unit_ports := unit_ports w; relation_data := relation_data w;
        next_key := next_key w; trace := trace w |}).

(** [self._snap.configure(cfg)] *)
Definition snap_configure (cfg : Ams.ServiceConfig) : M unit :=
  fun w =>
    (Ok tt,
     {| unit_status := unit_status w; snap_config := Some cfg;
        snap_location := snap_location w; snap_lxd := snap_lxd w;
        unit_ports := unit_ports w; relation_data := relation_data w;
        next_key := next_key w; trace := trace w |}).

(** [self._snap.set_location(location, port)] *)
Definition snap_set_location (location port : PyVal) : M unit :=
  fun w =>
    (Ok tt,
     {| unit_status := unit_status w; snap_config := snap_config w;
        snap_location := Some (location, port); snap_lxd := snap_lxd w;
        unit_ports := unit_ports w; relation_data := relation_data w;
        next_key := next_key w; trace := trace w |}).

(** [self._snap.setup_lxd(cert=cert, key=key)] *)
Definition snap_setup_lxd (cert : Tls.Certificate) (key : Tls.PrivateKey) : M unit :=
  fun w =>
    (Ok tt,
     {| unit_status := unit_status w; snap_config := snap_config w;
        snap_location := snap_location w; snap_lxd := Some (cert, key);
        unit_ports := unit_ports w; relation_data := relation_data w;
        next_key := next_key w; trace := trace w |}).

(** The ports the model accepts. *)
Definition valid_port (port : Z) : bool := (1 <=? port) && (port <=? 65535).

(** [self.unit.set_ports(port)]: [ops] first closes the opened ports that are
    not wanted, then opens the wanted one, and opening a port outside 1..65535
    raises [ModelError]. So the opened ports become exactly [port], or none
    when the port is refused. *)
Definition set_ports (port : Z) : M unit :=
  fun w =>
    (if valid_port port then Ok tt else Raise (ModelError port),
     {| unit_status := unit_status w; snap_config := snap_config w;
        snap_location := snap_location w; snap_lxd := snap_lxd w;
        unit_ports := if valid_port port then [port] else [];
        relation_data := relation_data w;
        next_key := next_key w; trace := trace w |}).

(** A relation-joined event: the identifier of the relation that fired
    ([event.relation.id]). *)
Record RelationJoinedEvent : Type := mkRelationJoinedEvent {
  relation_id : Z
}.

(** [relation.data[self.unit]]: the data bag of this unit in a relation,
    empty until something is written to it. *)
Definition relation_bag (relation : Z) (w : World) : gmap string (list Tls.Certificate) :=
  default ∅ (relation_data w !! relation).

(** [relation.data[self.unit][key] = json.dumps([cert.decode("utf-8")])]: the
    value is kept as the list of certificates it serialises. *)
Definition relation_set (relation : Z) (key : string) (certs : list Tls.Certificate)
  : M unit :=
  fun w =>
    (Ok tt,
     {| unit_status := unit_status w; snap_config := snap_config w;
        snap_location := snap_location w; snap_lxd := snap_lxd w;
        unit_ports := unit_ports w;
        relation_data :=
          <[relation := <[key := certs]> (relation_bag relation w)]> (relation_data w);
        next_key := next_key w; trace := trace w |}).

(** The key generator hands out the next serial. *)
Definition fresh_serial : M nat :=
  fun w =>
    (Ok (next_key w),
     {| unit_status := unit_status w; snap_config := snap_config w;
        snap_location := snap_location w; snap_lxd := snap_lxd w;
        unit_ports := unit_ports w; relation_data := relation_data w;
        next_key := S (next_key w); trace := trace w |}).

#[global] Instance M_ret : MRet M := @ret.
#[global] Instance M_bind : MBind M := fun A B k m => bind m k.

End Exec.

(* ===================================================================== *)
(** ** The charm *)
(* ===================================================================== *)

Module Charm.
Import Py Exec.

(** [self.config[key]]: a missing option raises [KeyError]. *)
Definition config_get (self : Env) (key : string) : M PyVal :=
  match config self !! key with
  | Some v => ret v
  | None => raise (KeyError key)
  end.

(** [int(self.config[key])] *)
Definition config_int (self : Env) (key : string) : M Z :=
  v ← config_get self key;
  of_sum (to_int v).

(** [self.etcd.is_available] *)
Definition etcd_available (self : Env) : M bool :=
  emit EtcdIsAvailable;;
  ret (etcd_is_available self).

(** [self.etcd.get_config()] *)
Definition etcd_get_config (self : Env) : M (gmap string string) :=
  emit EtcdGetConfig;;
  ret (etcd_config self).

(** [logger.info(f"Received servers {servers}")] *)
Definition log_received_servers (servers : list string) : M unit :=
  emit (LogReceivedServers servers).

(** [generate_private_key(key_size=n)] *)
Definition generate_private_key (key_size : Z) : M Tls.PrivateKey :=
  serial ← fresh_serial;
  let key := Tls.mkPrivateKey key_size serial in
  emit (TlsCall (Tls.GeneratePrivateKey key));;
  ret key.

(** [generate_ca(private_key, subject)] *)
Definition generate_ca (private_key : Tls.PrivateKey) (subject : string)
  : M Tls.CaCertificate :=
  let ca := Tls.mkCa private_key subject in
  emit (TlsCall (Tls.GenerateCa ca));;
  ret ca.

(** [generate_csr(private_key=, subject=, sans_dns=, sans_ip=)] *)
Definition generate_csr (private_key : Tls.PrivateKey) (subject : string)
    (sans_dns sans_ip : list string) : M Tls.Csr :=
  let csr := Tls.mkCsr private_key subject sans_dns sans_ip in
  emit (TlsCall (Tls.GenerateCsr csr));;
  ret csr.

(** [generate_certificate(csr=, ca=, ca_key=)] *)
Definition generate_certificate (csr : Tls.Csr) (ca : Tls.CaCertificate)
    (ca_key : Tls.PrivateKey) : M Tls.Certificate :=
  let cert := Tls.mkCertificate csr ca ca_key in
  emit (TlsCall (Tls.GenerateCertificate cert));;
  ret cert.

(** Which [return] a run of [_on_config_changed] left through: one of the two
    early ones, or the end of the body after [cfg] was handed to the snap.
    (The Python handler itself returns [None] on all three.) *)
Inductive Outcome : Type :=
| NotReady
| Configured (cfg : Ams.ServiceConfig).

(** Lines 67-79 of [_on_config_changed]: the store configuration, or [None]
    when the handler returned early. *)
Definition resolve_store (self : Env) : M (option Ams.ETCDConfig) :=
  use_embedded ← config_get self "use_embedded_etcd";
  let etcd_cfg := Ams.new_ETCDConfig use_embedded in
  if negb (Ams.is_ready etcd_cfg) then
    available ← etcd_available self;
    if negb available then
      set_status (BlockedStatus "Waiting for etcd");;
      ret None
    else
      cfg ← etcd_get_config self;
      let servers := split "," (default "" (cfg !! "connection_string")) in
      log_received_servers servers;;
      if negb (list_truthy servers) then
        set_status (BlockedStatus "Waiting for etcd");;
        ret None
      else
        ret (Some (Ams.set_servers etcd_cfg servers))
  else
    ret (Some etcd_cfg).

(** Lines 80-87. *)
Definition build_backend (self : Env) : M Ams.BackendConfig :=
  port_range ← config_get self "port_range";
  lxd_project ← config_get self "lxd_project";
  force_tls12 ← config_get self "force_tls12";
  use_network_acl ← config_get self "use_network_acl";
  let backend_cfg :=
    Ams.new_BackendConfig port_range lxd_project force_tls12 use_network_acl in
  metrics_server ← config_get self "metrics_server";
  if truthy metrics_server then
    metrics_server' ← config_get self "metrics_server";
    ret (Ams.set_metrics_server backend_cfg ("influxdb:" ++ to_str metrics_server'))
  else
    ret backend_cfg.

(** Lines 89-98. *)
Definition build_metrics (self : Env) : M Ams.PrometheusConfig :=
  let ip := private_ip self in
  port ← config_int self "prometheus_target_port";
  tls_cert_path ← config_get self "prometheus_tls_cert_path";
  tls_key_path ← config_get self "prometheus_tls_key_path";
  basic_auth_username ← config_get self "prometheus_basic_auth_username";
  basic_auth_password ← config_get self "prometheus_basic_auth_password";
  extra_labels ← config_get self "prometheus_extra_labels";
  metrics_path ← config_get self "prometheus_metrics_path";
  ret (Ams.mkPrometheusConfig ip port tls_cert_path tls_key_path
         basic_auth_username basic_auth_password extra_labels metrics_path).

(** Lines 99-106. *)
Definition build_service (self : Env) (metrics_cfg : Ams.PrometheusConfig)
    (backend_cfg : Ams.BackendConfig) (etcd_cfg : Ams.ETCDConfig)
  : M Ams.ServiceConfig :=
  let ip := private_ip self in
  port ← config_int self "port";
  log_level ← config_get self "log_level";
  ret (Ams.mkServiceConfig ip port log_level metrics_cfg backend_cfg etcd_cfg).

(** Lines 80-110: everything after the store was resolved. *)
Definition configure_service (self : Env) (etcd_cfg : Ams.ETCDConfig) : M Outcome :=
  backend_cfg ← build_backend self;
  metrics_cfg ← build_metrics self;
  cfg ← build_service self metrics_cfg backend_cfg etcd_cfg;
  snap_configure cfg;;
  location ← config_get self "location";
  port ← config_get self "port";
  snap_set_location location port;;
  port' ← config_int self "port";
  set_ports port';;
  set_status ActiveStatus;;
  ret (Configured cfg).

(** [_on_config_changed] *)
Definition _on_config_changed (self : Env) : M Outcome :=
  set_status (WaitingStatus "Configuring AMS");;
  resolved ← resolve_store self;
  match resolved with
  | None => ret NotReady
  | Some etcd_cfg => configure_service self etcd_cfg
  end.

(** [_generate_selfsigned_cert] *)
Definition _generate_selfsigned_cert (hostname public_ip private_ip : string)
  : M (Tls.Certificate * Tls.PrivateKey) :=
  if negb (str_truthy hostname) then raise (Exception "A hostname is required")
  else if negb (str_truthy public_ip) then raise (Exception "A public IP is required")
  else if negb (str_truthy private_ip) then raise (Exception "A private IP is required")
  else
    ca_key ← generate_private_key 4096;
    ca_cert ← generate_ca ca_key hostname;
    key ← generate_private_key 4096;
    csr ← generate_csr key hostname [public_ip; private_ip; hostname]
            [public_ip; private_ip];
    cert ← generate_certificate csr ca_cert ca_key;
    ret (cert, key).

(** [_on_lxd_integrator_joined] *)
Definition _on_lxd_integrator_joined (self : Env) (event : RelationJoinedEvent)
  : M unit :=
  '(cert, key) ← _generate_selfsigned_cert (public_ip self) (public_ip self)
                   (private_ip self);
  snap_setup_lxd cert key;;
  relation_set (relation_id event) "client_certificates" [cert].

End Charm.

(* ===================================================================== *)
(** ** Concrete inputs *)
(* ===================================================================== *)

Module Sample.
Import Py Exec.

(** The options [_on_config_changed] reads, with sample values for a unit
    that uses an external etcd. *)
Definition options : list (string * PyVal) :=
  [ ("use_embedded_etcd", VBool false);
    ("port_range", VStr "10000-11000");
    ("lxd_project", VStr "ams");
    ("force_tls12", VBool false);
    ("use_network_acl", VBool false);
    ("metrics_server", VStr "");
    ("prometheus_target_port", VInt 9104);
    ("prometheus_tls_cert_path", VStr "");
    ("prometheus_tls_key_path", VStr "");
    ("prometheus_basic_auth_username", VStr "");
    ("prometheus_basic_auth_password", VStr "");
    ("prometheus_extra_labels", VStr "");
    ("prometheus_metrics_path", VStr "/internal/1.0/metrics");
    ("location", VStr "");
    ("port", VInt 8444);
    ("log_level", VStr "info") ].

Definition config : gmap string PyVal := list_to_map options.

(** A unit whose etcd relation reports [connection_string]. *)
Definition env_with (cfg : gmap string PyVal) (available : bool)
    (connection_string : option string) : Env :=
  {| Exec.config := cfg;
     etcd_is_available := available;
     etcd_config :=
       match connection_string with
       | Some s => {[ "connection_string" := s ]}
       | None => ∅
       end;
     public_ip := "1.2.3.4";
     private_ip := "10.0.0.1" |}.

(** A relation-joined event of the [lxd-cluster] relation number 7, and one
    of another relation on the same endpoint. *)
Definition joined : RelationJoinedEvent := {| relation_id := 7 |}.
Definition joined' : RelationJoinedEvent := {| relation_id := 8 |}.

(** A freshly installed unit. *)
Definition world0 : World :=
  {| unit_status := WaitingStatus "";
     snap_config := None;
     snap_location := None;
     snap_lxd := None;
     unit_ports := [];
     relation_data := ∅;
     next_key := 0;
     trace := [] |}.

End Sample.

(* ===================================================================== *)
(** ** Well-formed configurations *)
(* ===================================================================== *)

Module Wf.
Import Py Exec.

Definition present (self : Env) (key : string) : bool :=
  match config self !! key with
  | Some _ => true
  | None => false
  end.

(** The option is there and [int()] accepts it. *)
Definition int_ok (self : Env) (key : string) : bool :=
  match config self !! key with
  | Some v => match to_int v with inr _ => true | inl _ => false end
  | None => false
  end.

Definition backend_options : list string :=
  ["port_range"; "lxd_project"; "force_tls12"; "use_network_acl"].

Definition other_options : list string :=
  ["prometheus_target_port"; "prometheus_tls_cert_path";
   "prometheus_tls_key_path"; "prometheus_basic_auth_username";
   "prometheus_basic_auth_password"; "prometheus_extra_labels";
   "prometheus_metrics_path"; "port"; "log_level"; "location"].

(** Every option read after the store was resolved is present. *)
Definition all_present (self : Env) : bool :=
  forallb (present self) (backend_options ++ ["metrics_server"] ++ other_options).

(** The option is there, [int()] accepts it and [set_ports] accepts the
    number. *)
Definition port_ok (self : Env) (key : string) : bool :=
  match config self !! key with
  | Some v => match to_int v with inr p => valid_port p | inl _ => false end
  | None => false
  end.

(** ... and [int()] accepts the two port options, and the [port] option is a
    port the model opens. *)
Definition complete (self : Env) : bool :=
  all_present self && int_ok self "prometheus_target_port" && int_ok self "port"
  && port_ok self "port".

(** The option, when it is a string, is made of ASCII characters: then
    [to_int] is Python's [int()] on it. *)
Definition plain (self : Env) (key : string) : bool :=
  match config self !! key with
  | Some (VStr s) => is_ascii s
  | _ => true
  end.

Definition plain_ports (self : Env) : bool :=
  plain self "prometheus_target_port" && plain self "port".

(** The endpoint [_on_config_changed] derives from the [metrics_server]
    option. *)
Definition endpoint_of (setting : option PyVal) : option string :=
  match setting with
  | Some v => if truthy v then Some ("influxdb:" ++ to_str v) else None
  | None => None
  end.

(** The world after [self.unit.status = s]. *)
Definition with_status (s : Status) (w : World) : World :=
  snd (set_status s w).

(** The action [m] never changes the component [f] of the world, whether it
    returns or raises. *)
Definition preserves {X A} (f : World -> X) (m : M A) : Prop :=
  forall w r w', m w = (r, w') -> f w' = f w.

End Wf.

(* ===================================================================== *)
(** ** The other handlers: install, etcd available, and the observers *)
(* ===================================================================== *)

Module Juju.
Import Py Exec.

(** What the other handlers read besides [Env]: the version the snap reports
    ([self._snap.version]). *)
Record Host : Type := mkHost {
  env : Env;
  snap_version : string
}.

(** What the other handlers change besides [World]: whether the snap was
    installed, the workload version of the unit, and the etcd credentials
    given to the snap. *)
Record Unit : Type := mkUnit {
  world : World;
  snap_installed : bool;
  workload_version : option string;
  snap_etcd : option (string * string * string)
}.

Definition MU (A : Type) : Type := Unit -> Res A * Unit.

Definition retU {A} (a : A) : MU A := fun u => (Ok a, u).

Definition bindU {A B} (m : MU A) (k : A -> MU B) : MU B :=
  fun u =>
    match m u with
    | (Ok a, u') => k a u'
    | (Raise e, u') => (Raise e, u')
    end.

Definition raiseU {A} (e : PyExn) : MU A := fun u => (Raise e, u).

#[global] Instance MU_ret : MRet MU := @retU.
#[global] Instance MU_bind : MBind MU := fun A B k m => bindU m k.

(** An action on the world, run inside the unit. *)
Definition lift {A} (m : M A) : MU A :=
  fun u =>
    match m (world u) with
    | (r, w') =>
        (r, {| world := w'; snap_installed := snap_installed u;
               workload_version := workload_version u;
               snap_etcd := snap_etcd u |})
    end.

(** [self._snap.install()] *)
Definition snap_install : MU unit :=
  fun u =>
    (Ok tt,
     {| world := world u; snap_installed := true;
        workload_version := workload_version u; snap_etcd := snap_etcd u |}).

(** [self.unit.set_workload_version(version)] *)
Definition set_workload_version (version : string) : MU unit :=
  fun u =>
    (Ok tt,
     {| world := world u; snap_installed := snap_installed u;
        workload_version := Some version; snap_etcd := snap_etcd u |}).

(** [self._snap.setup_etcd(ca=ca, cert=cert, key=key)] *)
Definition snap_setup_etcd (ca cert key : string) : MU unit :=
  fun u =>
    (Ok tt,
     {| world := world u; snap_installed := snap_installed u;
        workload_version := workload_version u;
        snap_etcd := Some (ca, cert, key) |}).

(** [cfg[key]] on the dictionary [self.etcd.get_config()] returned. *)
Definition dict_get (cfg : gmap string string) (key : string) : MU string :=
  match cfg !! key with
  | Some v => mret v
  | None => raiseU (KeyError key)
  end.

(** [_is_ua_attached] *)
Definition _is_ua_attached (_ : unit) : bool := true.

(** [_on_install] *)
Definition _on_install (host : Host) : MU unit :=
  (if negb (_is_ua_attached tt)
   then lift (set_status (BlockedStatus "Waiting for UA attachment"))
   else mret tt);;
  snap_install;;
  set_workload_version (snap_version host).

(** [_on_etcd_available]; [self.on.config_changed.emit()] runs the observer
    of that event, [_on_config_changed], before it returns. The value
    returned is the outcome of that run. *)
Definition _on_etcd_available (host : Host) : MU Charm.Outcome :=
  cfg ← lift (Charm.etcd_get_config (env host));
  ca ← dict_get cfg "ca";
  cert ← dict_get cfg "cert";
  key ← dict_get cfg "key";
  snap_setup_etcd ca cert key;;
  lift (Charm._on_config_changed (env host)).

(** The events [__init__] observes. *)
Inductive CharmEvent : Type :=
| Install
| ConfigChanged
| EtcdAvailable
| LxdClusterRelationJoined (event : RelationJoinedEvent).

(** The observers registered by [__init__]. *)
Definition dispatch (event : CharmEvent) (host : Host) : MU unit :=
  match event with
  | Install => _on_install host
  | ConfigChanged => lift (Charm._on_config_changed (env host));; mret tt
  | EtcdAvailable => _on_etcd_available host;; mret tt
  | LxdClusterRelationJoined event =>
      lift (Charm._on_lxd_integrator_joined (env host) event)
  end.

(** A freshly deployed unit. *)
Definition unit0 : Unit :=
  {| world := Sample.world0; snap_installed := false;
     workload_version := None; snap_etcd := None |}.

(** A host whose etcd relation carries credentials and a connection
    string. *)
Definition host_with (cfg : gmap string PyVal) (available : bool)
    (etcd : list (string * string)) : Host :=
  {| env :=
       {| config := cfg; etcd_is_available := available;
          etcd_config := list_to_map etcd;
          public_ip := "1.2.3.4"; private_ip := "10.0.0.1" |};
     snap_version := "1.23.1" |}.

(** The unit after [self.etcd.get_config()]. *)
Definition after_get_config (u : Unit) : Unit :=
  {| world := snd (emit EtcdGetConfig (world u));
     snap_installed := snap_installed u;
     workload_version := workload_version u; snap_etcd := snap_etcd u |}.

End Juju.

(* ===================================================================== *)
(** ** Vocabulary of the further statements *)
(* ===================================================================== *)

Module Obs.
Import Py Exec.

(** Why a run of [_on_config_changed] on [self] can raise [e]: an option it
    subscripts is missing, or [int()] rejects one of the two ports, or the
    model refuses the number of the [port] option. *)
Definition explains (self : Env) (e : PyExn) : Prop :=
  (exists key, e = KeyError key /\ config self !! key = None)
  \/ (exists key v,
        (key = "prometheus_target_port" \/ key = "port")
        /\ config self !! key = Some v
        /\ to_int v = inl e)
  \/ (exists v p,
        e = ModelError p
        /\ config self !! "port" = Some v
        /\ to_int v = inr p
        /\ valid_port p = false).

(** The action [m] only reads [self]: it leaves the world as it is, and when
    it raises, [explains] tells why. *)
Definition reader {A} (self : Env) (m : M A) : Prop :=
  forall w r w',
    m w = (r, w') ->
    w' = w /\ (forall e, r = Raise e -> explains self e).

(** The parts of the world [_on_config_changed] writes: the new value of each
    component it assigns, and the events it appends to the trace. *)
Record Update : Type := mkUpdate {
  new_status : option Status;
  new_config : option Ams.ServiceConfig;
  new_location : option (PyVal * PyVal);
  new_ports : option (list Z);
  new_events : list Event
}.

Definition no_update : Update :=
  {| new_status := None; new_config := None; new_location := None;
     new_ports := None; new_events := [] |}.

Definition apply (d : Update) (w : World) : World :=
  {| unit_status := default (unit_status w) (new_status d);
     snap_config :=
       match new_config d with
       | Some cfg => Some cfg
       | None => snap_config w
       end;
     snap_location :=
       match new_location d with
       | Some l => Some l
       | None => snap_location w
       end;
     snap_lxd := snap_lxd w;
     unit_ports := default (unit_ports w) (new_ports d);
     relation_data := relation_data w;
     next_key := next_key w;
     trace := trace w ++ new_events d |}.

(** [d1], then [d2]. *)
Definition then_update (d1 d2 : Update) : Update :=
  {| new_status :=
       match new_status d2 with Some s => Some s | None => new_status d1 end;
     new_config :=
       match new_config d2 with Some c => Some c | None => new_config d1 end;
     new_location :=
       match new_location d2 with Some l => Some l | None => new_location d1 end;
     new_ports :=
       match new_ports d2 with Some p => Some p | None => new_ports d1 end;
     new_events := new_events d1 ++ new_events d2 |}.

(** The action [m] does not look at the world: it gives the same result and
    makes the same assignments whatever the world it runs in. *)
Definition oblivious {A} (m : M A) : Prop :=
  exists (r : Res A) (d : Update), forall w, m w = (r, apply d w).

(** Everything of the world but the trace. *)
Definition state_of (w : World) :=
  (unit_status w, snap_config w, snap_location w, snap_lxd w, unit_ports w,
   relation_data w, next_key w).


(** The configuration held by the snap, if any, has a ready store. *)
Definition applied_ready (w : World) : Prop :=
  forall cfg, snap_config w = Some cfg -> Ams.is_ready (Ams.store cfg) = true.

End Obs.

Import Py Exec.

(* ===================================================================== *)
(** ** Facts about the Python built-ins *)
(* ===================================================================== *)

Section Split.
Variable sep : ascii.

Lemma split_not_nil (s : string) : split sep s <> [].
Proof.
  destruct s as [|c rest]; simpl; [discriminate|].
  destruct (Ascii.eqb c sep); [discriminate|].
  destruct (split sep rest); discriminate.
Qed.

(** A list made by [split] is never falsy. *)
Lemma split_truthy (s : string) : list_truthy (split sep s) = true.
Proof.
  pose proof (split_not_nil s) as H.
  destruct (split sep s); [contradiction | reflexivity].
Qed.

(** One piece more than there are separators. *)
Lemma length_split (s : string) : length (split sep s) = S (count sep s).
Proof.
  induction s as [|c rest IH]; simpl; [reflexivity|].
  destruct (Ascii.eqb c sep); simpl.
  - now rewrite IH.
  - destruct (split sep rest) eqn:E; simpl in *; [discriminate | exact IH].
Qed.

Lemma join_cons (p q : string) (qs : list string) :
  join sep (p :: q :: qs) = (p ++ String sep (join sep (q :: qs)))%string.
Proof. reflexivity. Qed.

(** Joining the pieces gives the string back. *)
Lemma join_split (s : string) : join sep (split sep s) = s.
Proof.
  induction s as [|c rest IH]; [reflexivity|].
  pose proof (split_not_nil rest) as Hne.
  cbn [split].
  destruct (Ascii.eqb c sep) eqn:E.
  - apply Ascii.eqb_eq in E. subst c.
    destruct (split sep rest) as [|p ps]; [contradiction|].
    rewrite join_cons, IH. reflexivity.
  - destruct (split sep rest) as [|p [|q qs]]; [contradiction| |].
    + cbn [join] in *. now rewrite IH.
    + rewrite join_cons in IH. rewrite join_cons.
      rewrite <- IH. reflexivity.
Qed.

(** The empty string splits into one empty piece. *)
Lemma split_empty_string : split sep "" = [""].
Proof. reflexivity. Qed.

End Split.

Lemma to_int_VInt (z : Z) : to_int (VInt z) = inr z.
Proof. reflexivity. Qed.

Lemma str_truthy_false (s : string) : str_truthy s = false <-> s = "".
Proof.
  unfold str_truthy. destruct s; simpl; split; intros H;
    try reflexivity; discriminate.
Qed.

Lemma str_truthy_true (s : string) : str_truthy s = true <-> s <> "".
Proof.
  unfold str_truthy. destruct s; simpl; split; intros H;
    try reflexivity; try discriminate; contradiction.
Qed.

Example split_abc : split "," "a,b,c" = ["a"; "b"; "c"].
Proof. reflexivity. Qed.
Example split_trailing : split "," "a,,b," = ["a"; ""; "b"; ""].
Proof. reflexivity. Qed.
Example int_of_string_signed : int_of_string " -1_000 " = Some (-1000).
Proof. reflexivity. Qed.
Example int_of_string_letters : int_of_string "abc" = None.
Proof. reflexivity. Qed.
Example int_of_string_underscores : int_of_string "1__0" = None.
Proof. reflexivity. Qed.
Example int_of_string_trailing : int_of_string "8444 x" = None.
Proof. reflexivity. Qed.
Example to_str_negative : to_str (VInt (-12)) = "-12".
Proof. reflexivity. Qed.

(* ===================================================================== *)
(** ** Running the monad *)
(* ===================================================================== *)

(** Unfolds the monad and its primitive actions, leaving the tests on the
    inputs in place. *)
Ltac run_exec :=
  cbv beta iota zeta delta
    [mbind M_bind mret M_ret bind ret raise of_sum emit set_status
     snap_configure snap_set_location snap_setup_lxd set_ports relation_set
     fresh_serial Charm.etcd_available Charm.etcd_get_config
     Charm.log_received_servers Charm.generate_private_key Charm.generate_ca
     Charm.generate_csr Charm.generate_certificate].

Lemma config_get_Some (self : Env) (key : string) (v : PyVal) (w : World) :
  config self !! key = Some v -> Charm.config_get self key w = (Ok v, w).
Proof. intros H. unfold Charm.config_get. now rewrite H. Qed.

Lemma config_get_None (self : Env) (key : string) (w : World) :
  config self !! key = None ->
  Charm.config_get self key w = (Raise (KeyError key), w).
Proof. intros H. unfold Charm.config_get. now rewrite H. Qed.

Lemma bind_Ok {A B} (m : M A) (k : A -> M B) (w w' : World) (a : A) :
  m w = (Ok a, w') -> (m ≫= k) w = k a w'.
Proof. intros H. unfold mbind, M_bind, bind. now rewrite H. Qed.

Lemma bind_Raise {A B} (m : M A) (k : A -> M B) (w w' : World) (e : PyExn) :
  m w = (Raise e, w') -> (m ≫= k) w = (Raise e, w').
Proof. intros H. unfold mbind, M_bind, bind. now rewrite H. Qed.

(* ===================================================================== *)
(** ** Certificate issuance *)
(* ===================================================================== *)

Section Issuance.
Variables hostname public_ip private_ip : string.

(** The complete run of [_generate_selfsigned_cert] on three non-empty
    identities: five library calls, two serials drawn. *)
Lemma generate_selfsigned_cert_run (w : World) :
  hostname <> "" -> public_ip <> "" -> private_ip <> "" ->
  let ca_key := Tls.mkPrivateKey 4096 (next_key w) in
  let ca_cert := Tls.mkCa ca_key hostname in
  let key := Tls.mkPrivateKey 4096 (S (next_key w)) in
  let csr := Tls.mkCsr key hostname [public_ip; private_ip; hostname]
               [public_ip; private_ip] in
  let cert := Tls.mkCertificate csr ca_cert ca_key in
  Charm._generate_selfsigned_cert hostname public_ip private_ip w =
    (Ok (cert, key),
     {| unit_status := unit_status w; snap_config := snap_config w;
        snap_location := snap_location w; snap_lxd := snap_lxd w;
        unit_ports := unit_ports w; relation_data := relation_data w;
        next_key := S (S (next_key w));
        trace := trace w ++
          [TlsCall (Tls.GeneratePrivateKey ca_key);
           TlsCall (Tls.GenerateCa ca_cert);
           TlsCall (Tls.GeneratePrivateKey key);
           TlsCall (Tls.GenerateCsr csr);
           TlsCall (Tls.GenerateCertificate cert)] |}).
Proof.
  intros Hh Hpub Hpriv.
  apply str_truthy_true in Hh, Hpub, Hpriv.
  unfold Charm._generate_selfsigned_cert.
  rewrite Hh, Hpub, Hpriv. run_exec. cbn.
  rewrite <- !app_assoc. reflexivity.
Qed.

(** The three guards, in the order they are written. *)
Lemma generate_selfsigned_cert_guard (w : World) :
  hostname = "" \/ public_ip = "" \/ private_ip = "" ->
  exists msg,
    Charm._generate_selfsigned_cert hostname public_ip private_ip w =
      (Raise (Exception msg), w)
    /\ msg = (if negb (str_truthy hostname) then "A hostname is required"
              else if negb (str_truthy public_ip) then "A public IP is required"
              else "A private IP is required").
Proof.
  intros H. unfold Charm._generate_selfsigned_cert.
  destruct (str_truthy hostname) eqn:Eh; cbn [negb].
  2:{ eexists; split; reflexivity. }
  destruct (str_truthy public_ip) eqn:Epub; cbn [negb].
  2:{ eexists; split; reflexivity. }
  destruct (str_truthy private_ip) eqn:Epriv; cbn [negb].
  2:{ eexists; split; reflexivity. }
  apply str_truthy_true in Eh, Epub, Epriv.
  destruct H as [H | [H | H]]; contradiction.
Qed.

End Issuance.

(** C3. Certificate issuance with an empty hostname, public IP or private IP
    raises (a plain [Exception] carrying the name of the missing identity)
    and leaves the world as it found it: no serial is drawn from the key
    generator and no call reaches the certificate library. *)
Theorem C3_empty_identity_raises (hostname public_ip private_ip : string) (w : World) :
  hostname = "" \/ public_ip = "" \/ private_ip = "" ->
  exists msg,
    Charm._generate_selfsigned_cert hostname public_ip private_ip w =
      (Raise (Exception msg), w).
Proof.
  intros H.
  destruct (generate_selfsigned_cert_guard hostname public_ip private_ip w H)
    as [msg [Hrun _]].
  exists msg. exact Hrun.
Qed.

Lemma C3_witness :
  exists msg,
    Charm._generate_selfsigned_cert "" "1.2.3.4" "10.0.0.1" Sample.world0 =
      (Raise (Exception msg), Sample.world0).
Proof.
  apply (C3_empty_identity_raises "" "1.2.3.4" "10.0.0.1" Sample.world0).
  left. reflexivity.
Defined.

(** C4. On three non-empty identities the issued leaf certificate is made
    from a signing request whose subject is the hostname, whose DNS names are
    exactly public IP, private IP and hostname, whose IP addresses are
    exactly public IP and private IP, and it verifies against the CA
    certificate generated by the same call. *)
Theorem C4_leaf_request_and_issuer (hostname public_ip private_ip : string) (w : World) :
  hostname <> "" -> public_ip <> "" -> private_ip <> "" ->
  exists cert key ca_cert w' calls,
    Charm._generate_selfsigned_cert hostname public_ip private_ip w =
      (Ok (cert, key), w')
    /\ Tls.csr_private_key (Tls.cert_csr cert) = key
    /\ Tls.csr_subject (Tls.cert_csr cert) = hostname
    /\ Tls.csr_sans_dns (Tls.cert_csr cert) = [public_ip; private_ip; hostname]
    /\ (forall x, In x (Tls.csr_sans_dns (Tls.cert_csr cert)) <->
                  x = public_ip \/ x = private_ip \/ x = hostname)
    /\ Tls.csr_sans_ip (Tls.cert_csr cert) = [public_ip; private_ip]
    /\ (forall x, In x (Tls.csr_sans_ip (Tls.cert_csr cert)) <->
                  x = public_ip \/ x = private_ip)
    /\ trace w' = (trace w ++ calls)%list
    /\ In (TlsCall (Tls.GenerateCa ca_cert)) calls
    /\ In (TlsCall (Tls.GenerateCsr (Tls.cert_csr cert))) calls
    /\ Tls.verifies cert ca_cert = true.
Proof.
  intros Hh Hpub Hpriv.
  pose proof (generate_selfsigned_cert_run hostname public_ip private_ip w
                Hh Hpub Hpriv) as Hrun.
  cbv zeta in Hrun.
  eexists _, _, (Tls.mkCa (Tls.mkPrivateKey 4096 (next_key w)) hostname), _, _.
  split; [exact Hrun|].
  cbn [Tls.cert_csr Tls.csr_private_key Tls.csr_subject Tls.csr_sans_dns
       Tls.csr_sans_ip trace].
  repeat split; try reflexivity.
  - cbn [In]. intros [H | [H | [H | []]]]; auto.
  - cbn [In]. intros [H | [H | H]]; auto.
  - cbn [In]. intros [H | [H | []]]; auto.
  - cbn [In]. intros [H | H]; auto.
  - cbn [In]. auto.
  - cbn [In]. auto 6.
  - unfold Tls.verifies. cbn [Tls.cert_ca Tls.cert_ca_key Tls.ca_private_key].
    rewrite !bool_decide_eq_true_2 by reflexivity. reflexivity.
Qed.

Lemma C4_witness :
  exists cert key ca_cert w' calls,
    Charm._generate_selfsigned_cert "ams-0" "1.2.3.4" "10.0.0.1" Sample.world0 =
      (Ok (cert, key), w')
    /\ Tls.csr_private_key (Tls.cert_csr cert) = key
    /\ Tls.csr_subject (Tls.cert_csr cert) = "ams-0"
    /\ Tls.csr_sans_dns (Tls.cert_csr cert) = ["1.2.3.4"; "10.0.0.1"; "ams-0"]
    /\ (forall x, In x (Tls.csr_sans_dns (Tls.cert_csr cert)) <->
                  x = "1.2.3.4" \/ x = "10.0.0.1" \/ x = "ams-0")
    /\ Tls.csr_sans_ip (Tls.cert_csr cert) = ["1.2.3.4"; "10.0.0.1"]
    /\ (forall x, In x (Tls.csr_sans_ip (Tls.cert_csr cert)) <->
                  x = "1.2.3.4" \/ x = "10.0.0.1")
    /\ trace w' = (trace Sample.world0 ++ calls)%list
    /\ In (TlsCall (Tls.GenerateCa ca_cert)) calls
    /\ In (TlsCall (Tls.GenerateCsr (Tls.cert_csr cert))) calls
    /\ Tls.verifies cert ca_cert = true.
Proof.
  apply (C4_leaf_request_and_issuer "ams-0" "1.2.3.4" "10.0.0.1" Sample.world0);
    discriminate.
Defined.

(** C8. On three non-empty identities the library is called five times, in
    this order: a 4096-bit key for the CA, the CA certificate for that key
    with the hostname as subject, a second 4096-bit key, the signing request
    for the second key, the certificate signed with the CA key. The second
    key is not the CA key, and the pair returned is the certificate with the
    second key. *)
Theorem C8_two_keys_ca_first (hostname public_ip private_ip : string) (w : World) :
  hostname <> "" -> public_ip <> "" -> private_ip <> "" ->
  exists ca_key ca_cert key csr cert w',
    Charm._generate_selfsigned_cert hostname public_ip private_ip w =
      (Ok (cert, key), w')
    /\ trace w' = (trace w ++
         [TlsCall (Tls.GeneratePrivateKey ca_key);
          TlsCall (Tls.GenerateCa ca_cert);
          TlsCall (Tls.GeneratePrivateKey key);
          TlsCall (Tls.GenerateCsr csr);
          TlsCall (Tls.GenerateCertificate cert)])%list
    /\ Tls.key_size ca_key = 4096
    /\ Tls.key_serial ca_key = next_key w
    /\ Tls.ca_private_key ca_cert = ca_key
    /\ Tls.ca_subject ca_cert = hostname
    /\ Tls.key_size key = 4096
    /\ Tls.key_serial key = S (next_key w)
    /\ key <> ca_key
    /\ Tls.csr_private_key csr = key
    /\ Tls.cert_csr cert = csr
    /\ Tls.cert_ca cert = ca_cert
    /\ Tls.cert_ca_key cert = ca_key
    /\ next_key w' = S (S (next_key w)).
Proof.
  intros Hh Hpub Hpriv.
  pose proof (generate_selfsigned_cert_run hostname public_ip private_ip w
                Hh Hpub Hpriv) as Hrun.
  cbv zeta in Hrun.
  eexists _, _, _, _, _, _.
  split; [exact Hrun|].
  cbn. repeat split; try reflexivity.
  intros Heq. injection Heq as Heq. lia.
Qed.

Lemma C8_witness :
  exists ca_key ca_cert key csr cert w',
    Charm._generate_selfsigned_cert "ams-0" "1.2.3.4" "10.0.0.1" Sample.world0 =
      (Ok (cert, key), w')
    /\ trace w' = (trace Sample.world0 ++
         [TlsCall (Tls.GeneratePrivateKey ca_key);
          TlsCall (Tls.GenerateCa ca_cert);
          TlsCall (Tls.GeneratePrivateKey key);
          TlsCall (Tls.GenerateCsr csr);
          TlsCall (Tls.GenerateCertificate cert)])%list
    /\ Tls.key_size ca_key = 4096
    /\ Tls.key_serial ca_key = next_key Sample.world0
    /\ Tls.ca_private_key ca_cert = ca_key
    /\ Tls.ca_subject ca_cert = "ams-0"
    /\ Tls.key_size key = 4096
    /\ Tls.key_serial key = S (next_key Sample.world0)
    /\ key <> ca_key
    /\ Tls.csr_private_key csr = key
    /\ Tls.cert_csr cert = csr
    /\ Tls.cert_ca cert = ca_cert
    /\ Tls.cert_ca_key cert = ca_key
    /\ next_key w' = S (S (next_key Sample.world0)).
Proof.
  apply (C8_two_keys_ca_first "ams-0" "1.2.3.4" "10.0.0.1" Sample.world0);
    discriminate.
Defined.

(** C10. [_on_lxd_integrator_joined] is certificate issuance on (public IP,
    public IP, private IP) followed by the hand-over of its result: whatever
    that call raises the handler raises, and when both addresses are
    non-empty the certificate handed to the snap and published on the
    relation that fired has the public IP as CA subject and as leaf subject,
    DNS names that are exactly the public and the private IP, and the same two
    IP addresses. *)
Theorem C10_joined_issues_for_public_ip (self : Env) (event : RelationJoinedEvent)
    (w : World) :
  Charm._on_lxd_integrator_joined self event w =
    match Charm._generate_selfsigned_cert (public_ip self) (public_ip self)
            (private_ip self) w with
    | (Ok (cert, key), w1) =>
        (Ok tt,
         {| unit_status := unit_status w1; snap_config := snap_config w1;
            snap_location := snap_location w1; snap_lxd := Some (cert, key);
            unit_ports := unit_ports w1;
            relation_data :=
              <[relation_id event :=
                  <["client_certificates" := [cert]]>
                    (relation_bag (relation_id event) w1)]> (relation_data w1);
            next_key := next_key w1; trace := trace w1 |})
    | (Raise e, w1) => (Raise e, w1)
    end
  /\ (public_ip self <> "" -> private_ip self <> "" ->
      exists cert key w',
        Charm._on_lxd_integrator_joined self event w = (Ok tt, w')
        /\ snap_lxd w' = Some (cert, key)
        /\ relation_bag (relation_id event) w' !! "client_certificates" = Some [cert]
        /\ Tls.ca_subject (Tls.cert_ca cert) = public_ip self
        /\ Tls.csr_subject (Tls.cert_csr cert) = public_ip self
        /\ Tls.csr_sans_dns (Tls.cert_csr cert) =
             [public_ip self; private_ip self; public_ip self]
        /\ (forall x, In x (Tls.csr_sans_dns (Tls.cert_csr cert)) <->
                      x = public_ip self \/ x = private_ip self)
        /\ Tls.csr_sans_ip (Tls.cert_csr cert) = [public_ip self; private_ip self]
        /\ Tls.csr_private_key (Tls.cert_csr cert) = key).
Proof.
  split.
  - unfold Charm._on_lxd_integrator_joined.
    unfold mbind at 1, M_bind, bind.
    destruct (Charm._generate_selfsigned_cert _ _ _ w) as [[[cert key]|e] w1];
      reflexivity.
  - intros Hpub Hpriv.
    pose proof (generate_selfsigned_cert_run (public_ip self) (public_ip self)
                  (private_ip self) w Hpub Hpub Hpriv) as Hrun.
    cbv zeta in Hrun.
    unfold Charm._on_lxd_integrator_joined.
    rewrite (bind_Ok _ _ _ _ _ Hrun).
    run_exec.
    eexists _, _, _. split; [reflexivity|].
    cbn [snap_lxd relation_data Tls.cert_csr Tls.cert_ca Tls.ca_subject
         Tls.csr_subject Tls.csr_sans_dns Tls.csr_sans_ip Tls.csr_private_key
         snd snap_setup_lxd relation_set].
    split; [reflexivity|].
    split.
    { unfold relation_bag at 1. cbn [relation_data].
      rewrite lookup_insert_eq. apply lookup_insert_eq. }
    repeat split; try reflexivity; cbn; intuition.
Qed.

Lemma C10_witness :
  exists cert key w',
    Charm._on_lxd_integrator_joined (Sample.env_with Sample.config false None)
      Sample.joined Sample.world0 = (Ok tt, w')
    /\ snap_lxd w' = Some (cert, key)
    /\ relation_bag 7 w' !! "client_certificates" = Some [cert]
    /\ Tls.ca_subject (Tls.cert_ca cert) = "1.2.3.4"
    /\ Tls.csr_subject (Tls.cert_csr cert) = "1.2.3.4"
    /\ Tls.csr_sans_dns (Tls.cert_csr cert) = ["1.2.3.4"; "10.0.0.1"; "1.2.3.4"]
    /\ (forall x, In x (Tls.csr_sans_dns (Tls.cert_csr cert)) <->
                  x = "1.2.3.4" \/ x = "10.0.0.1")
    /\ Tls.csr_sans_ip (Tls.cert_csr cert) = ["1.2.3.4"; "10.0.0.1"]
    /\ Tls.csr_private_key (Tls.cert_csr cert) = key.
Proof.
  apply (proj2 (C10_joined_issues_for_public_ip
                  (Sample.env_with Sample.config false None) Sample.joined
                  Sample.world0));
    discriminate.
Defined.

(* ===================================================================== *)
(** ** Reconciliation: resolving the store *)
(* ===================================================================== *)

Lemma is_ready_new (v : PyVal) :
  Ams.is_ready (Ams.new_ETCDConfig v) = truthy v.
Proof. unfold Ams.is_ready. cbn. apply orb_false_r. Qed.

Section ResolveStore.
Variable self : Env.
Variable use_embedded : PyVal.
Hypothesis Hoption : config self !! "use_embedded_etcd" = Some use_embedded.

(** With the embedded store nothing else is looked at and nothing is
    changed. *)
Lemma resolve_store_embedded (w : World) :
  truthy use_embedded = true ->
  Charm.resolve_store self w = (Ok (Some (Ams.new_ETCDConfig use_embedded)), w).
Proof.
  intros Ht. unfold Charm.resolve_store.
  rewrite (bind_Ok _ _ _ _ _ (config_get_Some _ _ _ w Hoption)).
  rewrite is_ready_new, Ht. reflexivity.
Qed.

(** First early return: the etcd relation is not there yet. *)
Lemma resolve_store_unavailable (w : World) :
  truthy use_embedded = false ->
  etcd_is_available self = false ->
  Charm.resolve_store self w =
    (Ok None,
     {| unit_status := BlockedStatus "Waiting for etcd";
        snap_config := snap_config w; snap_location := snap_location w;
        snap_lxd := snap_lxd w; unit_ports := unit_ports w;
        relation_data := relation_data w; next_key := next_key w;
        trace := trace w ++ [EtcdIsAvailable] |}).
Proof.
  intros Ht Ha. unfold Charm.resolve_store.
  rewrite (bind_Ok _ _ _ _ _ (config_get_Some _ _ _ w Hoption)).
  rewrite is_ready_new, Ht. run_exec. rewrite Ha. reflexivity.
Qed.

(** The relation is there: the servers are the pieces of the connection
    string, and the second early return is never taken. *)
Lemma resolve_store_available (w : World) :
  truthy use_embedded = false ->
  etcd_is_available self = true ->
  let servers :=
    split "," (default "" (etcd_config self !! "connection_string")) in
  Charm.resolve_store self w =
    (Ok (Some (Ams.set_servers (Ams.new_ETCDConfig use_embedded) servers)),
     {| unit_status := unit_status w;
        snap_config := snap_config w; snap_location := snap_location w;
        snap_lxd := snap_lxd w; unit_ports := unit_ports w;
        relation_data := relation_data w; next_key := next_key w;
        trace := trace w ++
          [EtcdIsAvailable; EtcdGetConfig; LogReceivedServers servers] |}).
Proof.
  intros Ht Ha servers. subst servers. unfold Charm.resolve_store.
  rewrite (bind_Ok _ _ _ _ _ (config_get_Some _ _ _ w Hoption)).
  rewrite is_ready_new, Ht. run_exec. rewrite Ha. cbn [negb].
  rewrite (split_truthy "," _). cbn [negb trace].
  rewrite <- !app_assoc. reflexivity.
Qed.

End ResolveStore.

(** Without the option the subscript raises. *)
Lemma resolve_store_missing (self : Env) (w : World) :
  config self !! "use_embedded_etcd" = None ->
  Charm.resolve_store self w = (Raise (KeyError "use_embedded_etcd"), w).
Proof.
  intros H. unfold Charm.resolve_store.
  now rewrite (bind_Raise _ _ _ _ _ (config_get_None _ _ w H)).
Qed.

(** [resolve_store] returns [None] only through the first early return. *)
Lemma resolve_store_None (self : Env) (w w' : World) :
  Charm.resolve_store self w = (Ok None, w') ->
  exists v,
    config self !! "use_embedded_etcd" = Some v
    /\ truthy v = false
    /\ etcd_is_available self = false.
Proof.
  intros H.
  destruct (config self !! "use_embedded_etcd") as [v|] eqn:E.
  2:{ rewrite (resolve_store_missing _ _ E) in H. discriminate. }
  exists v. split; [reflexivity|].
  destruct (truthy v) eqn:Ht.
  { rewrite (resolve_store_embedded _ _ E _ Ht) in H. discriminate. }
  split; [reflexivity|].
  destruct (etcd_is_available self) eqn:Ha; [|reflexivity].
  rewrite (resolve_store_available _ _ E _ Ht Ha) in H. discriminate.
Qed.

(* ===================================================================== *)
(** ** Reconciliation: building and applying the configuration *)
(* ===================================================================== *)

(** Turns [present self k = true] into the value found under [k]. *)
Ltac lookup_present :=
  repeat match goal with
  | H : Wf.present ?s ?k = true |- _ =>
      unfold Wf.present in H;
      let v := fresh "v" in
      let E := fresh "E" in
      destruct (config s !! k) as [v|] eqn:E; [clear H | discriminate H]
  end.

Ltac split_present H :=
  cbn [forallb app Wf.backend_options Wf.other_options] in H;
  rewrite ?andb_true_iff in H; destruct_and?; lookup_present.

Lemma build_backend_run (self : Env) (w : World) :
  forallb (Wf.present self) (Wf.backend_options ++ ["metrics_server"]) = true ->
  exists b,
    Charm.build_backend self w = (Ok b, w)
    /\ config self !! "port_range" = Some (Ams.port_range b)
    /\ config self !! "lxd_project" = Some (Ams.lxd_project b)
    /\ config self !! "force_tls12" = Some (Ams.force_tls12 b)
    /\ config self !! "use_network_acl" = Some (Ams.use_network_acl b)
    /\ Ams.metrics_server b = Wf.endpoint_of (config self !! "metrics_server").
Proof.
  intros H. split_present H.
  unfold Charm.build_backend, Charm.config_get. run_exec.
  repeat match goal with E : config self !! _ = Some _ |- _ => rewrite E; clear E end.
  cbn [Wf.endpoint_of].
  match goal with |- context [truthy ?x] => destruct (truthy x) end.
  - eexists. split; [reflexivity|]. cbn. auto.
  - eexists. split; [reflexivity|]. cbn. auto.
Qed.

(** Once the store is resolved, a complete configuration is built, handed to
    the snap, and the unit becomes active. *)
Lemma on_config_changed_configured (self : Env) (w w1 : World) (e : Ams.ETCDConfig) :
  Wf.complete self = true ->
  Charm.resolve_store self (Wf.with_status (WaitingStatus "Configuring AMS") w) =
    (Ok (Some e), w1) ->
  exists cfg location port_value,
    Charm._on_config_changed self w =
      (Ok (Charm.Configured cfg),
       {| unit_status := ActiveStatus; snap_config := Some cfg;
          snap_location := Some (location, port_value);
          snap_lxd := snap_lxd w1; unit_ports := [Ams.port cfg];
          relation_data := relation_data w1; next_key := next_key w1;
          trace := trace w1 |})
    /\ Ams.store cfg = e
    /\ Ams.ip cfg = private_ip self
    /\ config self !! "port" = Some port_value
    /\ to_int port_value = inr (Ams.port cfg)
    /\ config self !! "location" = Some location
    /\ config self !! "log_level" = Some (Ams.log_level cfg)
    /\ Ams.metrics_server (Ams.backend cfg) =
         Wf.endpoint_of (config self !! "metrics_server")
    /\ Ams.prom_ip (Ams.metrics cfg) = private_ip self
    /\ (to_int <$> config self !! "prometheus_target_port") =
         Some (inr (Ams.prom_port (Ams.metrics cfg))).
Proof.
  intros Hc Hres.
  unfold Wf.complete, Wf.all_present in Hc.
  apply andb_prop in Hc as [Hc Hrange].
  apply andb_prop in Hc as [Hc Hport].
  apply andb_prop in Hc as [Hc Hprom].
  assert (Hb : forallb (Wf.present self)
                 (Wf.backend_options ++ ["metrics_server"]) = true).
  { rewrite app_assoc, forallb_app in Hc. now apply andb_prop in Hc. }
  assert (Ho : forallb (Wf.present self) Wf.other_options = true).
  { rewrite app_assoc, forallb_app in Hc. now apply andb_prop in Hc. }
  clear Hc.
  unfold Charm._on_config_changed.
  unfold mbind at 1, M_bind at 1, bind at 1.
  change (set_status (WaitingStatus "Configuring AMS") w)
    with (Ok tt, Wf.with_status (WaitingStatus "Configuring AMS") w).
  cbv beta iota.
  rewrite (bind_Ok _ _ _ _ _ Hres).
  unfold Charm.configure_service.
  destruct (build_backend_run self w1 Hb) as (b & Hbrun & _ & _ & _ & _ & Hend).
  rewrite (bind_Ok _ _ _ _ _ Hbrun).
  split_present Ho.
  unfold Wf.int_ok in Hport, Hprom. unfold Wf.port_ok in Hrange.
  repeat match goal with
  | E : config self !! ?k = Some _, H : context [config self !! ?k] |- _ =>
      rewrite E in H
  end.
  match type of Hprom with
  | context [to_int ?v] =>
      destruct (to_int v) as [|z0] eqn:Ez0; [discriminate Hprom | clear Hprom]
  end.
  match type of Hport with
  | context [to_int ?v] =>
      destruct (to_int v) as [|z] eqn:Ez; [discriminate Hport | clear Hport]
  end.
  unfold Charm.build_metrics, Charm.build_service, Charm.config_int,
    Charm.config_get.
  run_exec.
  repeat match goal with
  | E : config self !! _ = Some _ |- _ => rewrite !E
  end.
  cbv beta iota.
  repeat match goal with
  | E : to_int _ = inr _ |- _ => rewrite !E
  end.
  cbv beta iota. rewrite Hrange. cbv beta iota.
  cbn [unit_status snap_config snap_location snap_lxd unit_ports
       relation_data next_key trace].
  match goal with
  | |- context [(Ok (Charm.Configured ?c), _) = _] => exists c
  end.
  eexists _, _. split; [reflexivity|].
  cbn. rewrite Hend.
  repeat match goal with
  | E : to_int _ = inr _ |- _ => rewrite !E
  end.
  repeat split; reflexivity.
Qed.

(* ===================================================================== *)
(** ** Frames: what an action leaves alone *)
(* ===================================================================== *)

Section Frame.
Context {X : Type} (f : World -> X).
Local Abbreviation preserves := (Wf.preserves f).

Lemma preserves_ret {A} (a : A) : preserves (mret a).
Proof. intros w r w' H. injection H as _ <-. reflexivity. Qed.

Lemma preserves_raise {A} (e : PyExn) : preserves (@raise A e).
Proof. intros w r w' H. injection H as _ <-. reflexivity. Qed.

Lemma preserves_bind {A B} (m : M A) (k : A -> M B) :
  preserves m -> (forall a, preserves (k a)) -> preserves (m ≫= k).
Proof.
  intros Hm Hk w r w' H. unfold mbind, M_bind, bind in H.
  destruct (m w) as [[a|e] w1] eqn:E.
  - rewrite (Hk a _ _ _ H). exact (Hm _ _ _ E).
  - injection H as _ <-. exact (Hm _ _ _ E).
Qed.

Lemma preserves_of_sum {A} (r : PyExn + A) : preserves (of_sum r).
Proof. destruct r; [apply preserves_raise | apply preserves_ret]. Qed.

Lemma preserves_config_get (self : Env) (key : string) :
  preserves (Charm.config_get self key).
Proof.
  unfold Charm.config_get.
  destruct (config self !! key); [apply preserves_ret | apply preserves_raise].
Qed.

Lemma preserves_config_int (self : Env) (key : string) :
  preserves (Charm.config_int self key).
Proof.
  apply preserves_bind; [apply preserves_config_get|].
  intros v. apply preserves_of_sum.
Qed.

Lemma preserves_build_backend (self : Env) : preserves (Charm.build_backend self).
Proof.
  unfold Charm.build_backend.
  repeat (apply preserves_bind; [apply preserves_config_get | intros ?]).
  destruct (truthy _); [|apply preserves_ret].
  apply preserves_bind; [apply preserves_config_get | intros ?].
  apply preserves_ret.
Qed.

Lemma preserves_build_metrics (self : Env) : preserves (Charm.build_metrics self).
Proof.
  unfold Charm.build_metrics.
  apply preserves_bind; [apply preserves_config_int | intros ?].
  repeat (apply preserves_bind; [apply preserves_config_get | intros ?]).
  apply preserves_ret.
Qed.

Lemma preserves_build_service (self : Env) m b e :
  preserves (Charm.build_service self m b e).
Proof.
  unfold Charm.build_service.
  apply preserves_bind; [apply preserves_config_int | intros ?].
  apply preserves_bind; [apply preserves_config_get | intros ?].
  apply preserves_ret.
Qed.

End Frame.

Lemma bind_inv {A B} (m : M A) (k : A -> M B) (w w' : World) (b : B) :
  (m ≫= k) w = (Ok b, w') ->
  exists a w1, m w = (Ok a, w1) /\ k a w1 = (Ok b, w').
Proof.
  unfold mbind, M_bind, bind. intros H.
  destruct (m w) as [[a|e] w1]; [|discriminate].
  exists a, w1. split; [reflexivity | exact H].
Qed.

(** [resolve_store] touches the unit status and the trace only, and the
    status only on its early return. *)
Lemma resolve_store_frame (self : Env) (w w1 : World) (r : Res (option Ams.ETCDConfig)) :
  Charm.resolve_store self w = (r, w1) ->
  snap_config w1 = snap_config w
  /\ snap_location w1 = snap_location w
  /\ snap_lxd w1 = snap_lxd w
  /\ unit_ports w1 = unit_ports w
  /\ relation_data w1 = relation_data w
  /\ next_key w1 = next_key w
  /\ (r <> Ok None -> unit_status w1 = unit_status w).
Proof.
  intros H.
  destruct (config self !! "use_embedded_etcd") as [v|] eqn:E.
  2:{ rewrite (resolve_store_missing _ _ E) in H. injection H as <- <-.
      repeat split; reflexivity. }
  destruct (truthy v) eqn:Ht.
  { rewrite (resolve_store_embedded _ _ E _ Ht) in H. injection H as <- <-.
    repeat split; reflexivity. }
  destruct (etcd_is_available self) eqn:Ha.
  - rewrite (resolve_store_available _ _ E _ Ht Ha) in H. injection H as <- <-.
    repeat split; reflexivity.
  - rewrite (resolve_store_unavailable _ _ E _ Ht Ha) in H. injection H as <- <-.
    repeat split; try reflexivity. intros Hne. contradiction.
Qed.

(** The run of [_on_config_changed] when the store was not resolved. *)
Lemma on_config_changed_blocked (self : Env) (w w1 : World) :
  Charm.resolve_store self (Wf.with_status (WaitingStatus "Configuring AMS") w) =
    (Ok None, w1) ->
  Charm._on_config_changed self w = (Ok Charm.NotReady, w1).
Proof.
  intros H. unfold Charm._on_config_changed.
  unfold mbind at 1, M_bind at 1, bind at 1.
  change (set_status (WaitingStatus "Configuring AMS") w)
    with (Ok tt, Wf.with_status (WaitingStatus "Configuring AMS") w).
  cbv beta iota.
  now rewrite (bind_Ok _ _ _ _ _ H).
Qed.

(** A run that ends in [NotReady] went through the first early return. *)
Lemma on_config_changed_NotReady (self : Env) (w w' : World) :
  Charm._on_config_changed self w = (Ok Charm.NotReady, w') ->
  Charm.resolve_store self (Wf.with_status (WaitingStatus "Configuring AMS") w) =
    (Ok None, w').
Proof.
  intros H. unfold Charm._on_config_changed in H.
  apply bind_inv in H as ([] & w0 & Hset & H).
  injection Hset as <-.
  apply bind_inv in H as (resolved & w1 & Hres & H).
  destruct resolved as [e|].
  - unfold Charm.configure_service in H.
    repeat (apply bind_inv in H as (? & ? & _ & H)). discriminate H.
  - injection H as <-. exact Hres.
Qed.

(** C7. A run of [_on_config_changed] that ends in [NotReady] leaves the unit
    blocked ("Waiting for etcd") and applies nothing: the configuration last
    handed to the snap, its location, the opened ports, the LXD material, the
    relation data and the key generator are as before. Such runs exist: they
    are the runs without embedded store whose etcd relation is not
    available. *)
Theorem C7_not_ready_applies_nothing (self : Env) (w : World) :
  (forall w',
     Charm._on_config_changed self w = (Ok Charm.NotReady, w') ->
     unit_status w' = BlockedStatus "Waiting for etcd"
     /\ snap_config w' = snap_config w
     /\ snap_location w' = snap_location w
     /\ unit_ports w' = unit_ports w
     /\ snap_lxd w' = snap_lxd w
     /\ relation_data w' = relation_data w
     /\ next_key w' = next_key w)
  /\ (forall v,
        config self !! "use_embedded_etcd" = Some v ->
        truthy v = false ->
        etcd_is_available self = false ->
        exists w', Charm._on_config_changed self w = (Ok Charm.NotReady, w')).
Proof.
  split.
  - intros w' H. apply on_config_changed_NotReady in H.
    pose proof (resolve_store_frame _ _ _ _ H) as (H1 & H2 & H3 & H4 & H5 & H6 & _).
    destruct (resolve_store_None _ _ _ H) as (v & E & Ht & Ha).
    rewrite (resolve_store_unavailable _ _ E _ Ht Ha) in H.
    injection H as <-. repeat split; reflexivity.
  - intros v E Ht Ha. eexists.
    apply on_config_changed_blocked.
    apply (resolve_store_unavailable _ _ E _ Ht Ha).
Qed.

Lemma C7_witness :
  exists w',
    Charm._on_config_changed (Sample.env_with Sample.config false None)
      Sample.world0 = (Ok Charm.NotReady, w')
    /\ unit_status w' = BlockedStatus "Waiting for etcd"
    /\ snap_config w' = snap_config Sample.world0
    /\ snap_location w' = snap_location Sample.world0
    /\ unit_ports w' = unit_ports Sample.world0
    /\ snap_lxd w' = snap_lxd Sample.world0
    /\ relation_data w' = relation_data Sample.world0
    /\ next_key w' = next_key Sample.world0.
Proof.
  eexists. split; [vm_compute; reflexivity|].
  apply (proj1 (C7_not_ready_applies_nothing
                  (Sample.env_with Sample.config false None) Sample.world0)).
  vm_compute. reflexivity.
Defined.

(** The second guard of [_on_config_changed], [if not servers], is dead:
    with the etcd relation available the store is always resolved. *)
Lemma second_guard_dead (self : Env) (w : World) (v : PyVal) :
  config self !! "use_embedded_etcd" = Some v ->
  etcd_is_available self = true ->
  exists e w1, Charm.resolve_store self w = (Ok (Some e), w1).
Proof.
  intros E Ha. destruct (truthy v) eqn:Ht.
  - eexists _, _. apply (resolve_store_embedded _ _ E _ Ht).
  - eexists _, _. apply (resolve_store_available _ _ E _ Ht Ha).
Qed.

(** C1 (what the code does). Without embedded store, with the etcd relation
    available and an empty (or missing) connection string, the run is not
    blocked: the store is given the one-element server list [[""]], the
    configuration is handed to the snap and the unit becomes active (the
    configuration being complete: every option present, both ports accepted
    by [int()], the port within 1..65535). *)
Theorem C1_empty_connection_string_is_applied (self : Env) (w : World) (v : PyVal) :
  config self !! "use_embedded_etcd" = Some v ->
  truthy v = false ->
  etcd_is_available self = true ->
  default "" (etcd_config self !! "connection_string") = "" ->
  Wf.complete self = true ->
  exists cfg w',
    Charm._on_config_changed self w = (Ok (Charm.Configured cfg), w')
    /\ Ams.servers (Ams.store cfg) = [""]
    /\ snap_config w' = Some cfg
    /\ unit_status w' = ActiveStatus.
Proof.
  intros E Ht Ha Hcs Hc.
  pose proof (resolve_store_available _ _ E
                (Wf.with_status (WaitingStatus "Configuring AMS") w) Ht Ha) as Hres.
  cbv zeta in Hres. rewrite Hcs in Hres.
  destruct (on_config_changed_configured _ _ _ _ Hc Hres)
    as (cfg & loc & pv & Hrun & Hstore & _).
  eexists cfg, _. split; [exact Hrun|].
  rewrite Hstore. repeat split; reflexivity.
Qed.

Lemma C1_witness :
  exists cfg w',
    Charm._on_config_changed (Sample.env_with Sample.config true (Some ""))
      Sample.world0 = (Ok (Charm.Configured cfg), w')
    /\ Ams.servers (Ams.store cfg) = [""]
    /\ snap_config w' = Some cfg
    /\ unit_status w' = ActiveStatus.
Proof.
  apply (C1_empty_connection_string_is_applied
           (Sample.env_with Sample.config true (Some "")) Sample.world0
           (VBool false)); reflexivity.
Defined.



(* ===================================================================== *)
(** ** Reconciliation with the embedded store *)
(* ===================================================================== *)

(** [configure_service] makes no external call that is kept in the trace. *)
Lemma configure_service_trace (self : Env) (e : Ams.ETCDConfig) :
  Wf.preserves trace (Charm.configure_service self e).
Proof.
  unfold Charm.configure_service.
  apply preserves_bind; [apply preserves_build_backend | intros b].
  apply preserves_bind; [apply preserves_build_metrics | intros m].
  apply preserves_bind; [apply preserves_build_service | intros cfg].
  apply preserves_bind; [intros w r w' H; injection H as _ <-; reflexivity | intros _].
  apply preserves_bind; [apply preserves_config_get | intros location].
  apply preserves_bind; [apply preserves_config_get | intros port].
  apply preserves_bind; [intros w r w' H; injection H as _ <-; reflexivity | intros _].
  apply preserves_bind; [apply preserves_config_int | intros port'].
  apply preserves_bind; [intros w r w' H; injection H as _ <-; reflexivity | intros _].
  apply preserves_bind; [intros w r w' H; injection H as _ <-; reflexivity | intros _].
  apply preserves_ret.
Qed.

(** [configure_service] reads the configuration mapping and the private
    address, nothing else. *)
Lemma configure_service_reads (self self' : Env) (e : Ams.ETCDConfig) :
  config self' = config self ->
  private_ip self' = private_ip self ->
  Charm.configure_service self' e = Charm.configure_service self e.
Proof.
  destruct self, self'. cbn [config private_ip]. intros -> ->. reflexivity.
Qed.

(** The run of [_on_config_changed] once the store is resolved. *)
Lemma on_config_changed_resolved (self : Env) (w w1 : World) (e : Ams.ETCDConfig) :
  Charm.resolve_store self (Wf.with_status (WaitingStatus "Configuring AMS") w) =
    (Ok (Some e), w1) ->
  Charm._on_config_changed self w = Charm.configure_service self e w1.
Proof.
  intros Hres. unfold Charm._on_config_changed.
  unfold mbind at 1, M_bind at 1, bind at 1.
  change (set_status (WaitingStatus "Configuring AMS") w)
    with (Ok tt, Wf.with_status (WaitingStatus "Configuring AMS") w).
  cbv beta iota.
  now rewrite (bind_Ok _ _ _ _ _ Hres).
Qed.

(** The run of [_on_config_changed] with the embedded store. *)
Lemma on_config_changed_embedded (self : Env) (w : World) (v : PyVal) :
  config self !! "use_embedded_etcd" = Some v ->
  truthy v = true ->
  Charm._on_config_changed self w =
    Charm.configure_service self (Ams.new_ETCDConfig v)
      (Wf.with_status (WaitingStatus "Configuring AMS") w).
Proof.
  intros E Ht. unfold Charm._on_config_changed.
  unfold mbind at 1, M_bind at 1, bind at 1.
  change (set_status (WaitingStatus "Configuring AMS") w)
    with (Ok tt, Wf.with_status (WaitingStatus "Configuring AMS") w).
  cbv beta iota.
  now rewrite (bind_Ok _ _ _ _ _ (resolve_store_embedded _ _ E _ Ht)).
Qed.

(** C5. [is_ready] holds exactly when [use_embedded] is true or [servers] is
    not empty, so with [use_embedded] true it holds for every server list.
    With the embedded store a run of [_on_config_changed] resolves the store
    without touching the world, makes no call on the etcd relation (the
    trace is as before), and its result is the same for every availability
    and every connection data of that relation. *)
Theorem C5_ready_iff_and_embedded_store :
  (forall c : Ams.ETCDConfig,
     Ams.is_ready c = true <->
     truthy (Ams.use_embedded c) = true \/ Ams.servers c <> [])
  /\ (forall l : list string,
        Ams.is_ready {| Ams.use_embedded := VBool true; Ams.servers := l |} = true)
  /\ (forall (self : Env) (w : World) (v : PyVal),
        config self !! "use_embedded_etcd" = Some v ->
        truthy v = true ->
        Charm.resolve_store self w = (Ok (Some (Ams.new_ETCDConfig v)), w)
        /\ Ams.is_ready (Ams.new_ETCDConfig v) = true
        /\ (forall r w', Charm._on_config_changed self w = (r, w') ->
                         trace w' = trace w)
        /\ (forall self' : Env,
              config self' = config self ->
              private_ip self' = private_ip self ->
              Charm._on_config_changed self' w = Charm._on_config_changed self w)).
Proof.
  split; [|split].
  - intros [u l]. unfold Ams.is_ready. cbn.
    rewrite orb_true_iff. destruct l; cbn; intuition congruence.
  - intros l. reflexivity.
  - intros self w v E Ht.
    split; [apply (resolve_store_embedded _ _ E _ Ht)|].
    split; [now rewrite is_ready_new|].
    split.
    + intros r w' H. rewrite (on_config_changed_embedded _ _ _ E Ht) in H.
      apply configure_service_trace in H. exact H.
    + intros self' Hc Hp.
      assert (E' : config self' !! "use_embedded_etcd" = Some v)
        by now rewrite Hc.
      rewrite (on_config_changed_embedded _ _ _ E Ht).
      rewrite (on_config_changed_embedded _ _ _ E' Ht).
      now rewrite (configure_service_reads _ _ _ Hc Hp).
Qed.

Lemma C5_witness :
  let cfg := <["use_embedded_etcd" := VBool true]> Sample.config in
  Charm.resolve_store (Sample.env_with cfg false None) Sample.world0 =
    (Ok (Some (Ams.new_ETCDConfig (VBool true))), Sample.world0)
  /\ Charm._on_config_changed (Sample.env_with cfg true (Some "a,b,c")) Sample.world0 =
     Charm._on_config_changed (Sample.env_with cfg false None) Sample.world0.
Proof.
  destruct (proj2 (proj2 C5_ready_iff_and_embedded_store)
              (Sample.env_with (<["use_embedded_etcd" := VBool true]> Sample.config)
                 false None)
              Sample.world0 (VBool true)) as (H1 & _ & _ & H4);
    try reflexivity.
  split; [exact H1|]. apply H4; reflexivity.
Defined.

(* ===================================================================== *)
(** ** The metrics endpoint of the backend *)
(* ===================================================================== *)

Lemma config_get_inv (self : Env) (key : string) (v : PyVal) (w w' : World) :
  Charm.config_get self key w = (Ok v, w') ->
  config self !! key = Some v /\ w' = w.
Proof.
  unfold Charm.config_get. destruct (config self !! key); intros H.
  - injection H as -> ->. split; reflexivity.
  - discriminate H.
Qed.








(* ===================================================================== *)
(** ** Integer coercion of the ports *)
(* ===================================================================== *)


(** What [int()] refuses is a string, and the exception carries it. *)
Lemma to_int_refused (v : PyVal) (e : PyExn) :
  to_int v = inl e -> exists s, v = VStr s /\ e = ValueError s.
Proof.
  destruct v as [b|z|s]; cbn; try discriminate.
  destruct (int_of_string s); [discriminate|].
  intros H. injection H as <-. eauto.
Qed.

(** Once the store is resolved, a port that [int()] rejects makes the run
    raise [ValueError] with the rejected string, before anything is applied;
    [prometheus_target_port] is looked at first. *)
Lemma configure_service_bad_port (self : Env) (e : Ams.ETCDConfig) (w : World) :
  Wf.all_present self = true ->
  Wf.int_ok self "prometheus_target_port" && Wf.int_ok self "port" = false ->
  exists key literal,
    key = (if Wf.int_ok self "prometheus_target_port" then "port"
           else "prometheus_target_port")
    /\ config self !! key = Some (VStr literal)
    /\ Charm.configure_service self e w = (Raise (ValueError literal), w).
Proof.
  intros Hc Hbad. unfold Wf.all_present in Hc.
  assert (Hb : forallb (Wf.present self)
                 (Wf.backend_options ++ ["metrics_server"]) = true).
  { rewrite app_assoc, forallb_app in Hc. now apply andb_prop in Hc. }
  assert (Ho : forallb (Wf.present self) Wf.other_options = true).
  { rewrite app_assoc, forallb_app in Hc. now apply andb_prop in Hc. }
  clear Hc.
  unfold Charm.configure_service.
  destruct (build_backend_run self w Hb) as (b & Hbrun & _).
  rewrite (bind_Ok _ _ _ _ _ Hbrun).
  split_present Ho.
  unfold Wf.int_ok in *.
  repeat match goal with
  | E : config self !! ?k = Some _, H : context [config self !! ?k] |- _ =>
      rewrite E in H
  end.
  unfold Charm.build_metrics, Charm.build_service, Charm.config_int,
    Charm.config_get.
  run_exec.
  repeat match goal with
  | E : config self !! _ = Some _ |- _ => rewrite !E
  end.
  cbv beta iota.
  match type of Hbad with
  | context [to_int ?a] => destruct (to_int a) as [ex|z] eqn:Ea
  end.
  { destruct (to_int_refused _ _ Ea) as (s & -> & ->).
    exists "prometheus_target_port", s. auto. }
  cbv beta iota.
  match type of Hbad with
  | context [to_int ?a] => destruct (to_int a) as [ex|z'] eqn:Ea'
  end.
  { destruct (to_int_refused _ _ Ea') as (s & -> & ->).
    exists "port", s. auto. }
  discriminate Hbad.
Qed.

(** Once the store is resolved, a [port] that [int()] accepts and the model
    refuses makes the run raise [ModelError] at its last but one statement:
    the snap has its new configuration and location by then. *)
Lemma configure_service_refused_port (self : Env) (e : Ams.ETCDConfig) (w : World) :
  Wf.all_present self = true ->
  Wf.int_ok self "prometheus_target_port" && Wf.int_ok self "port" = true ->
  Wf.port_ok self "port" = false ->
  exists p cfg location port_value,
    Charm.configure_service self e w =
      (Raise (ModelError p),
       {| unit_status := unit_status w; snap_config := Some cfg;
          snap_location := Some (location, port_value);
          snap_lxd := snap_lxd w; unit_ports := [];
          relation_data := relation_data w; next_key := next_key w;
          trace := trace w |})
    /\ Ams.store cfg = e
    /\ Ams.port cfg = p
    /\ config self !! "port" = Some port_value
    /\ to_int port_value = inr p
    /\ valid_port p = false.
Proof.
  intros Hc Hint Hrange. unfold Wf.all_present in Hc.
  apply andb_prop in Hint as [Hprom Hport].
  assert (Hb : forallb (Wf.present self)
                 (Wf.backend_options ++ ["metrics_server"]) = true).
  { rewrite app_assoc, forallb_app in Hc. now apply andb_prop in Hc. }
  assert (Ho : forallb (Wf.present self) Wf.other_options = true).
  { rewrite app_assoc, forallb_app in Hc. now apply andb_prop in Hc. }
  clear Hc.
  unfold Charm.configure_service.
  destruct (build_backend_run self w Hb) as (b & Hbrun & _).
  rewrite (bind_Ok _ _ _ _ _ Hbrun).
  split_present Ho.
  unfold Wf.int_ok in Hport, Hprom. unfold Wf.port_ok in Hrange.
  repeat match goal with
  | E : config self !! ?k = Some _, H : context [config self !! ?k] |- _ =>
      rewrite E in H
  end.
  match type of Hprom with
  | context [to_int ?v] =>
      destruct (to_int v) as [|z0] eqn:Ez0; [discriminate Hprom | clear Hprom]
  end.
  match type of Hport with
  | context [to_int ?v] =>
      destruct (to_int v) as [|z] eqn:Ez; [discriminate Hport | clear Hport]
  end.
  unfold Charm.build_metrics, Charm.build_service, Charm.config_int,
    Charm.config_get.
  run_exec.
  repeat match goal with
  | E : config self !! _ = Some _ |- _ => rewrite !E
  end.
  cbv beta iota.
  repeat match goal with
  | E : to_int _ = inr _ |- _ => rewrite !E
  end.
  cbv beta iota. rewrite Hrange. cbv beta iota.
  cbn [unit_status snap_config snap_location snap_lxd unit_ports
       relation_data next_key trace].
  exists z.
  match goal with
  | |- context [mkWorld _ (Some ?c) _ _ _ _ _ _] => exists c
  end.
  eexists _, _. split; [reflexivity|]. cbn. auto.
Qed.

(** C2 (as amended). [_on_config_changed] applies [int()] to the two port
    options itself and hands [int(port)] to [set_ports]. Take a configuration
    in which every option is present (the port options, when strings, being
    ASCII). If the store is not embedded and the etcd relation is not
    available, the run ends in [NotReady] whatever the ports are. Otherwise:
    when [int()] accepts both ports and the model accepts the port, the run
    hands a [ServiceConfig] to the snap and returns; when [int()] rejects one
    of the ports, the run raises the [ValueError] of the first one rejected
    ([prometheus_target_port] before [port]), with the unit still in its
    "Configuring AMS" status and the configuration held by the snap
    untouched; when [int()] accepts both but the port is outside 1..65535, the
    run raises [ModelError] after the snap was given its new configuration. *)
Theorem C2_ports_are_coerced_by_the_handler (self : Env) (w : World) (v : PyVal) :
  config self !! "use_embedded_etcd" = Some v ->
  Wf.all_present self = true ->
  Wf.plain_ports self = true ->
  (truthy v = false -> etcd_is_available self = false ->
   exists w', Charm._on_config_changed self w = (Ok Charm.NotReady, w'))
  /\ (truthy v = true \/ etcd_is_available self = true ->
      (Wf.int_ok self "prometheus_target_port" && Wf.int_ok self "port" = true ->
       Wf.port_ok self "port" = true ->
       exists cfg w',
         Charm._on_config_changed self w = (Ok (Charm.Configured cfg), w')
         /\ snap_config w' = Some cfg)
      /\ (Wf.int_ok self "prometheus_target_port" && Wf.int_ok self "port" = false ->
          exists key literal w',
            key = (if Wf.int_ok self "prometheus_target_port" then "port"
                   else "prometheus_target_port")
            /\ config self !! key = Some (VStr literal)
            /\ Charm._on_config_changed self w = (Raise (ValueError literal), w')
            /\ unit_status w' = WaitingStatus "Configuring AMS"
            /\ snap_config w' = snap_config w)
      /\ (Wf.int_ok self "prometheus_target_port" && Wf.int_ok self "port" = true ->
          Wf.port_ok self "port" = false ->
          exists p port_value cfg w',
            config self !! "port" = Some port_value
            /\ to_int port_value = inr p
            /\ Charm._on_config_changed self w = (Raise (ModelError p), w')
            /\ unit_status w' = WaitingStatus "Configuring AMS"
            /\ snap_config w' = Some cfg)).
Proof.
  intros E Hall _.
  set (w0 := Wf.with_status (WaitingStatus "Configuring AMS") w).
  split.
  { intros Ht Ha. eexists. apply on_config_changed_blocked.
    apply (resolve_store_unavailable _ _ E _ Ht Ha). }
  intros Hready.
  assert (Hres : exists e w1, Charm.resolve_store self w0 = (Ok (Some e), w1)).
  { destruct (truthy v) eqn:Ht.
    - eexists _, _. apply (resolve_store_embedded _ _ E _ Ht).
    - destruct Hready as [Hready | Ha]; [discriminate Hready|].
      eexists _, _. apply (resolve_store_available _ _ E _ Ht Ha). }
  destruct Hres as (e & w1 & Hres).
  pose proof (resolve_store_frame _ _ _ _ Hres) as (Hs & _ & _ & _ & _ & _ & Hst).
  rewrite (on_config_changed_resolved _ _ _ _ Hres).
  split; [|split].
  - intros Hint Hrange.
    assert (Hc : Wf.complete self = true).
    { unfold Wf.complete. rewrite Hall, Hrange. cbn [andb]. now rewrite Hint. }
    destruct (on_config_changed_configured _ _ _ _ Hc Hres)
      as (cfg & loc & pv & Hrun & _).
    rewrite (on_config_changed_resolved _ _ _ _ Hres) in Hrun.
    exists cfg. eexists. split; [exact Hrun | reflexivity].
  - intros Hbad.
    destruct (configure_service_bad_port self e w1 Hall Hbad)
      as (key & literal & Hkey & Hlit & Hraise).
    exists key, literal, w1.
    repeat (split; [assumption|]). split.
    + rewrite Hst by discriminate. reflexivity.
    + rewrite Hs. reflexivity.
  - intros Hint Hrange.
    destruct (configure_service_refused_port self e w1 Hall Hint Hrange)
      as (p & cfg & loc & pv & Hraise & _ & _ & Hpv & Hp & _).
    exists p, pv, cfg. eexists.
    repeat (split; [eassumption|]). cbn. split; [|reflexivity].
    rewrite Hst by discriminate. reflexivity.
Qed.

Lemma C2_witness :
  exists key literal w',
    key = "port"
    /\ config (Sample.env_with (<["port" := VStr "abc"]> Sample.config) true
                 (Some "a,b,c")) !! key = Some (VStr literal)
    /\ Charm._on_config_changed
         (Sample.env_with (<["port" := VStr "abc"]> Sample.config) true (Some "a,b,c"))
         Sample.world0 = (Raise (ValueError literal), w')
    /\ unit_status w' = WaitingStatus "Configuring AMS"
    /\ snap_config w' = snap_config Sample.world0.
Proof.
  destruct (C2_ports_are_coerced_by_the_handler
              (Sample.env_with (<["port" := VStr "abc"]> Sample.config) true
                 (Some "a,b,c"))
              Sample.world0 (VBool false)) as (_ & H);
    [reflexivity | reflexivity | reflexivity |].
  destruct H as (_ & H & _); [right; reflexivity|].
  apply H. reflexivity.
Defined.

(** C2 (as stated) fails: with the embedded store and the port option set to
    the string "abc", the run raises [ValueError] instead of returning. *)
Lemma C2_counterexample :
  Charm._on_config_changed
    (Sample.env_with
       (<["port" := VStr "abc"]> (<["use_embedded_etcd" := VBool true]> Sample.config))
       false None)
    Sample.world0 =
    (Raise (ValueError "abc"),
     Wf.with_status (WaitingStatus "Configuring AMS") Sample.world0)
  /\ ~ (exists o w',
          Charm._on_config_changed
            (Sample.env_with
               (<["port" := VStr "abc"]>
                  (<["use_embedded_etcd" := VBool true]> Sample.config))
               false None)
            Sample.world0 = (Ok o, w')).
Proof.
  assert (H : Charm._on_config_changed
    (Sample.env_with
       (<["port" := VStr "abc"]> (<["use_embedded_etcd" := VBool true]> Sample.config))
       false None)
    Sample.world0 =
    (Raise (ValueError "abc"),
     Wf.with_status (WaitingStatus "Configuring AMS") Sample.world0))
    by (vm_compute; reflexivity).
  split; [exact H|].
  intros (o & w' & Hok). rewrite H in Hok. discriminate Hok.
Qed.

(* ===================================================================== *)
(** ** Further facts *)
(* ===================================================================== *)

(** The scenario of a unit whose etcd relation arrives later: blocked first,
    active with the one server once the connection string is there. *)
Example etcd_arrives_later :
  fst (Charm._on_config_changed (Sample.env_with Sample.config false None)
         Sample.world0) = Ok Charm.NotReady
  /\ exists cfg w',
       Charm._on_config_changed
         (Sample.env_with Sample.config true (Some "10.0.0.5:2379"))
         Sample.world0 = (Ok (Charm.Configured cfg), w')
       /\ Ams.servers (Ams.store cfg) = ["10.0.0.5:2379"]
       /\ unit_status w' = ActiveStatus.
Proof.
  split; [reflexivity|].
  eexists _, _. split; [vm_compute; reflexivity|]. split; reflexivity.
Qed.

(** Two issuances in a row use four different keys. *)
Example two_issuances_four_keys :
  exists c1 k1 w1 c2 k2 w2,
    Charm._generate_selfsigned_cert "ams-0" "1.2.3.4" "10.0.0.1" Sample.world0 =
      (Ok (c1, k1), w1)
    /\ Charm._generate_selfsigned_cert "ams-0" "1.2.3.4" "10.0.0.1" w1 =
      (Ok (c2, k2), w2)
    /\ Tls.cert_csr c1 <> Tls.cert_csr c2
    /\ Tls.csr_sans_dns (Tls.cert_csr c1) = Tls.csr_sans_dns (Tls.cert_csr c2)
    /\ NoDup [k1; k2; Tls.cert_ca_key c1; Tls.cert_ca_key c2].
Proof.
  eexists _, _, _, _, _, _.
  split; [vm_compute; reflexivity|].
  split; [vm_compute; reflexivity|].
  split; [discriminate|].
  split; [reflexivity|].
  apply (bool_decide_unpack _). vm_compute. exact I.
Qed.

(* ===================================================================== *)
(** ** The servers read from the etcd relation *)
(* ===================================================================== *)

(** No piece made by [split] contains the separator. *)
Lemma split_no_sep (sep : ascii) (s : string) :
  Forall (fun piece => count sep piece = 0%nat) (split sep s).
Proof.
  induction s as [|c rest IH]; cbn [split].
  - constructor; [reflexivity | constructor].
  - destruct (Ascii.eqb c sep) eqn:E.
    + constructor; [reflexivity | exact IH].
    + destruct (split sep rest) as [|p ps]; [repeat constructor; cbn; now rewrite E|].
      inversion IH as [|? ? Hp Hps]; subst.
      constructor; [|exact Hps]. cbn. now rewrite E, Hp.
Qed.

(** X1. When the store is not embedded and the etcd relation is available,
    the servers given to the store configuration are the pieces of the
    connection string between its commas: there is at least one, there is
    one more than there are commas, none contains a comma, and joined with
    commas they give the connection string back. *)
Theorem X1_servers_are_the_comma_pieces (self : Env) (w : World) (v : PyVal) :
  config self !! "use_embedded_etcd" = Some v ->
  truthy v = false ->
  etcd_is_available self = true ->
  exists e w1,
    Charm.resolve_store self w = (Ok (Some e), w1)
    /\ Ams.use_embedded e = v
    /\ Ams.servers e <> []
    /\ length (Ams.servers e) =
         S (count "," (default "" (etcd_config self !! "connection_string")))
    /\ Forall (fun server => count "," server = 0%nat) (Ams.servers e)
    /\ join "," (Ams.servers e) =
         default "" (etcd_config self !! "connection_string").
Proof.
  intros E Ht Ha.
  pose proof (resolve_store_available _ _ E w Ht Ha) as Hres. cbv zeta in Hres.
  eexists _, _. split; [exact Hres|]. cbn [Ams.set_servers Ams.servers Ams.use_embedded
                                           Ams.new_ETCDConfig].
  split; [reflexivity|].
  split; [apply split_not_nil|].
  split; [apply length_split|].
  split; [apply split_no_sep | apply join_split].
Qed.

Lemma X1_witness :
  exists e w1,
    Charm.resolve_store
      (Sample.env_with Sample.config true (Some "10.0.0.5:2379,10.0.0.6:2379"))
      Sample.world0 = (Ok (Some e), w1)
    /\ Ams.use_embedded e = VBool false
    /\ Ams.servers e <> []
    /\ length (Ams.servers e) = 2%nat
    /\ Forall (fun server => count "," server = 0%nat) (Ams.servers e)
    /\ join "," (Ams.servers e) = "10.0.0.5:2379,10.0.0.6:2379".
Proof.
  apply (X1_servers_are_the_comma_pieces
           (Sample.env_with Sample.config true (Some "10.0.0.5:2379,10.0.0.6:2379"))
           Sample.world0 (VBool false)); reflexivity.
Defined.

(** X2. A run of [_on_config_changed] ends in [NotReady] exactly when the
    store is not embedded and the etcd relation is not available; an
    available relation never blocks the unit, whatever its connection
    string. *)
Theorem X2_not_ready_iff_unavailable (self : Env) (w : World) :
  (exists w', Charm._on_config_changed self w = (Ok Charm.NotReady, w'))
  <-> (exists v,
         config self !! "use_embedded_etcd" = Some v
         /\ truthy v = false
         /\ etcd_is_available self = false).
Proof.
  split.
  - intros [w' H]. apply on_config_changed_NotReady in H.
    exact (resolve_store_None _ _ _ H).
  - intros (v & E & Ht & Ha). eexists.
    apply on_config_changed_blocked.
    apply (resolve_store_unavailable _ _ E _ Ht Ha).
Qed.

Lemma X2_witness :
  exists w',
    Charm._on_config_changed (Sample.env_with Sample.config false (Some "a,b,c"))
      Sample.world0 = (Ok Charm.NotReady, w').
Proof.
  apply (proj2 (X2_not_ready_iff_unavailable
                  (Sample.env_with Sample.config false (Some "a,b,c"))
                  Sample.world0)).
  exists (VBool false). repeat split; reflexivity.
Defined.

(* ===================================================================== *)
(** ** What the configuration builders read and why they raise *)
(* ===================================================================== *)

Lemma bind_inv_Raise {A B} (m : M A) (k : A -> M B) (w w' : World) (e : PyExn) :
  (m ≫= k) w = (Raise e, w') ->
  m w = (Raise e, w')
  \/ exists a w1, m w = (Ok a, w1) /\ k a w1 = (Raise e, w').
Proof.
  unfold mbind, M_bind, bind. intros H.
  destruct (m w) as [[a|e0] w1].
  - right. exists a, w1. split; [reflexivity | exact H].
  - left. injection H as -> ->. reflexivity.
Qed.

Section Readers.
Variable self : Env.
Local Abbreviation reader := (Obs.reader self).

Lemma reader_ret {A} (a : A) : reader (mret a).
Proof.
  intros w r w' H. injection H as <- <-.
  split; [reflexivity | discriminate].
Qed.

Lemma reader_bind {A B} (m : M A) (k : A -> M B) :
  reader m -> (forall a, reader (k a)) -> reader (m ≫= k).
Proof.
  intros Hm Hk w r w' H. unfold mbind, M_bind, bind in H.
  destruct (m w) as [[a|e] w1] eqn:E; destruct (Hm _ _ _ E) as [-> He].
  - exact (Hk a _ _ _ H).
  - injection H as <- <-. split; [reflexivity|].
    intros e0 [= <-]. apply He. reflexivity.
Qed.

Lemma reader_config_get (key : string) : reader (Charm.config_get self key).
Proof.
  intros w r w' H. unfold Charm.config_get in H.
  destruct (config self !! key) eqn:E; injection H as <- <-.
  - split; [reflexivity | discriminate].
  - split; [reflexivity|]. intros e [= <-]. left. exists key. split; [reflexivity | exact E].
Qed.

Lemma reader_config_int (key : string) :
  key = "prometheus_target_port" \/ key = "port" ->
  reader (Charm.config_int self key).
Proof.
  intros Hk w r w' H. unfold Charm.config_int in H.
  unfold mbind, M_bind, bind in H.
  destruct (Charm.config_get self key w) as [[v|e] w1] eqn:E.
  - apply config_get_inv in E as [E ->].
    destruct (to_int v) as [ex|z] eqn:Ev; cbn in H; injection H as <- <-.
    + split; [reflexivity|]. intros e [= <-]. right. left. exists key, v. auto.
    + split; [reflexivity | discriminate].
  - destruct (reader_config_get key _ _ _ E) as [-> He].
    injection H as <- <-. split; [reflexivity|].
    intros e0 [= <-]. apply He. reflexivity.
Qed.

Lemma reader_build_backend : reader (Charm.build_backend self).
Proof.
  unfold Charm.build_backend.
  repeat (apply reader_bind; [apply reader_config_get | intros ?]).
  destruct (truthy _); [|apply reader_ret].
  apply reader_bind; [apply reader_config_get | intros ?].
  apply reader_ret.
Qed.

Lemma reader_build_metrics : reader (Charm.build_metrics self).
Proof.
  unfold Charm.build_metrics.
  apply reader_bind; [apply reader_config_int; auto | intros ?].
  repeat (apply reader_bind; [apply reader_config_get | intros ?]).
  apply reader_ret.
Qed.

Lemma reader_build_service m b e : reader (Charm.build_service self m b e).
Proof.
  unfold Charm.build_service.
  apply reader_bind; [apply reader_config_int; auto | intros ?].
  apply reader_bind; [apply reader_config_get | intros ?].
  apply reader_ret.
Qed.

(** What a successful [config_int] tells. *)
Lemma config_int_inv (key : string) (z : Z) (w w' : World) :
  Charm.config_int self key w = (Ok z, w') ->
  w' = w /\ exists v, config self !! key = Some v /\ to_int v = inr z.
Proof.
  intros H. unfold Charm.config_int in H.
  apply bind_inv in H as (v & w1 & Hv & H).
  apply config_get_inv in Hv as [Hv ->].
  destruct (to_int v) as [ex|z'] eqn:Ev; cbn in H; [discriminate H|].
  injection H as -> ->. split; [reflexivity|]. exists v. auto.
Qed.

Lemma present_of_lookup (key : string) (v : PyVal) :
  config self !! key = Some v -> Wf.present self key = true.
Proof. intros E. unfold Wf.present. now rewrite E. Qed.

Lemma int_ok_of_lookup (key : string) (v : PyVal) (z : Z) :
  config self !! key = Some v -> to_int v = inr z -> Wf.int_ok self key = true.
Proof. intros E Ez. unfold Wf.int_ok. now rewrite E, Ez. Qed.

(** What a successful [build_backend] tells. *)
Lemma build_backend_Ok (b : Ams.BackendConfig) (w w' : World) :
  Charm.build_backend self w = (Ok b, w') ->
  forallb (Wf.present self) (Wf.backend_options ++ ["metrics_server"]) = true.
Proof.
  unfold Charm.build_backend. intros H.
  do 5 (let E := fresh "E" in
        apply bind_inv in H as (? & ? & E & H);
        apply config_get_inv in E as [E%present_of_lookup ->]).
  cbn. now rewrite E, E0, E1, E2, E3.
Qed.

(** What a successful [build_metrics] tells. *)
Lemma build_metrics_Ok (m : Ams.PrometheusConfig) (w w' : World) :
  Charm.build_metrics self w = (Ok m, w') ->
  Ams.prom_ip m = private_ip self
  /\ Wf.int_ok self "prometheus_target_port" = true
  /\ forallb (Wf.present self)
       ["prometheus_target_port"; "prometheus_tls_cert_path";
        "prometheus_tls_key_path"; "prometheus_basic_auth_username";
        "prometheus_basic_auth_password"; "prometheus_extra_labels";
        "prometheus_metrics_path"] = true.
Proof.
  unfold Charm.build_metrics. intros H.
  apply bind_inv in H as (z & w1 & Hz & H).
  apply config_int_inv in Hz as [-> (v & Ev & Ez)].
  do 6 (let E := fresh "E" in
        apply bind_inv in H as (? & ? & E & H);
        apply config_get_inv in E as [E%present_of_lookup ->]).
  injection H as <- _. cbn.
  rewrite (present_of_lookup _ _ Ev), (int_ok_of_lookup _ _ _ Ev Ez).
  now rewrite E, E0, E1, E2, E3, E4.
Qed.

(** What a successful [build_service] tells. *)
Lemma build_service_Ok m b e (cfg : Ams.ServiceConfig) (w w' : World) :
  Charm.build_service self m b e w = (Ok cfg, w') ->
  w' = w
  /\ Ams.ip cfg = private_ip self
  /\ Ams.metrics cfg = m /\ Ams.backend cfg = b /\ Ams.store cfg = e
  /\ config self !! "log_level" = Some (Ams.log_level cfg)
  /\ exists v, config self !! "port" = Some v /\ to_int v = inr (Ams.port cfg).
Proof.
  unfold Charm.build_service. intros H.
  apply bind_inv in H as (z & w1 & Hz & H).
  apply config_int_inv in Hz as [-> (v & Ev & Ez)].
  apply bind_inv in H as (l & w1 & Hl & H).
  apply config_get_inv in Hl as [Hl ->].
  injection H as <- <-. cbn. repeat split; try reflexivity; eauto.
Qed.

End Readers.

(* ===================================================================== *)
(** ** Every way through [configure_service] *)
(* ===================================================================== *)

(** The two ways through [set_ports]. *)
Lemma set_ports_inv (port : Z) (w w' : World) (r : Res unit) :
  set_ports port w = (r, w') ->
  (r = Ok tt /\ valid_port port = true
   /\ w' = {| unit_status := unit_status w; snap_config := snap_config w;
              snap_location := snap_location w; snap_lxd := snap_lxd w;
              unit_ports := [port]; relation_data := relation_data w;
              next_key := next_key w; trace := trace w |})
  \/ (r = Raise (ModelError port) /\ valid_port port = false
      /\ w' = {| unit_status := unit_status w; snap_config := snap_config w;
                 snap_location := snap_location w; snap_lxd := snap_lxd w;
                 unit_ports := []; relation_data := relation_data w;
                 next_key := next_key w; trace := trace w |}).
Proof.
  unfold set_ports. intros H. destruct (valid_port port); injection H as <- <-; auto.
Qed.

(** The world after the last four statements of [_on_config_changed]. *)
Lemma configure_service_Ok (self : Env) (e : Ams.ETCDConfig) (w w' : World)
    (o : Charm.Outcome) :
  Charm.configure_service self e w = (Ok o, w') ->
  exists cfg location port_value,
    o = Charm.Configured cfg
    /\ w' = {| unit_status := ActiveStatus; snap_config := Some cfg;
               snap_location := Some (location, port_value);
               snap_lxd := snap_lxd w; unit_ports := [Ams.port cfg];
               relation_data := relation_data w; next_key := next_key w;
               trace := trace w |}
    /\ Ams.store cfg = e
    /\ Ams.ip cfg = private_ip self
    /\ Ams.prom_ip (Ams.metrics cfg) = private_ip self
    /\ config self !! "location" = Some location
    /\ config self !! "port" = Some port_value
    /\ to_int port_value = inr (Ams.port cfg)
    /\ Wf.complete self = true.
Proof.
  unfold Charm.configure_service. intros H.
  apply bind_inv in H as (b & w1 & Hb & H).
  destruct (reader_build_backend self _ _ _ Hb) as [-> _].
  apply build_backend_Ok in Hb.
  apply bind_inv in H as (m & w1 & Hm & H).
  destruct (reader_build_metrics self _ _ _ Hm) as [-> _].
  apply build_metrics_Ok in Hm as (Hpip & Hprom & Hm).
  apply bind_inv in H as (cfg & w1 & Hs & H).
  apply build_service_Ok in Hs as (-> & Hip & <- & <- & <- & Hlog & pv & Hpv & Hint).
  apply bind_inv in H as ([] & w1 & Hc & H). injection Hc as <-.
  apply bind_inv in H as (loc & w1 & Hloc & H).
  apply config_get_inv in Hloc as [Hloc ->].
  apply bind_inv in H as (pv' & w1 & Hpv' & H).
  apply config_get_inv in Hpv' as [Hpv' ->].
  assert (pv' = pv) as -> by congruence.
  apply bind_inv in H as ([] & w1 & Hl & H). injection Hl as <-.
  apply bind_inv in H as (z & w1 & Hz & H).
  apply config_int_inv in Hz as [-> (v & Ev & Ez)].
  assert (v = pv) as -> by congruence.
  assert (z = Ams.port cfg) as -> by congruence.
  apply bind_inv in H as ([] & w1 & Hp & H).
  apply set_ports_inv in Hp as [(_ & Hvalid & ->) | (Hp & _)]; [|discriminate Hp].
  apply bind_inv in H as ([] & w1 & Ha & H). injection Ha as <-.
  injection H as <- <-.
  exists cfg, loc, pv.
  repeat (split; [solve [reflexivity | assumption]|]).
  unfold Wf.complete, Wf.all_present.
  assert (Hrange : Wf.port_ok self "port" = true).
  { unfold Wf.port_ok. now rewrite Hpv, Hint. }
  rewrite Hprom, (int_ok_of_lookup _ _ _ _ Hpv Hint), Hrange, !andb_true_r.
  rewrite app_assoc, forallb_app, Hb. cbn in Hm |- *.
  rewrite !andb_true_iff in Hm. destruct_and?.
  repeat match goal with
  | Hp : Wf.present self _ = true |- _ => rewrite Hp; clear Hp
  end.
  rewrite (present_of_lookup _ _ _ Hpv), (present_of_lookup _ _ _ Hlog),
    (present_of_lookup _ _ _ Hloc).
  reflexivity.
Qed.

(** A raising run of [configure_service] stops before anything is written,
    with two exceptions. When the [location] option is missing, the snap has
    been configured already. When the model refuses the port, the snap has
    been configured and given its location, and the ports are closed. *)
Lemma configure_service_Raise (self : Env) (e : Ams.ETCDConfig) (w w' : World)
    (ex : PyExn) :
  Charm.configure_service self e w = (Raise ex, w') ->
  Obs.explains self ex
  /\ (w' = w
      \/ (ex = KeyError "location"
          /\ exists cfg, w' = snd (snap_configure cfg w) /\ Ams.store cfg = e)
      \/ (exists p cfg location port_value,
            ex = ModelError p
            /\ w' = {| unit_status := unit_status w; snap_config := Some cfg;
                       snap_location := Some (location, port_value);
                       snap_lxd := snap_lxd w; unit_ports := [];
                       relation_data := relation_data w; next_key := next_key w;
                       trace := trace w |}
            /\ Ams.store cfg = e
            /\ config self !! "port" = Some port_value
            /\ to_int port_value = inr p
            /\ valid_port p = false)).
Proof.
  unfold Charm.configure_service. intros H.
  apply bind_inv_Raise in H as [H | (b & w1 & Hb & H)].
  { destruct (reader_build_backend self _ _ _ H) as [-> He]. split; [eauto | now left]. }
  destruct (reader_build_backend self _ _ _ Hb) as [-> _].
  apply bind_inv_Raise in H as [H | (m & w1 & Hm & H)].
  { destruct (reader_build_metrics self _ _ _ H) as [-> He]. split; [eauto | now left]. }
  destruct (reader_build_metrics self _ _ _ Hm) as [-> _].
  apply bind_inv_Raise in H as [H | (cfg & w1 & Hs & H)].
  { destruct (reader_build_service self _ _ _ _ _ _ H) as [-> He].
    split; [eauto | now left]. }
  apply build_service_Ok in Hs as (-> & _ & _ & _ & Hst & _ & pv & Hpv & Hint).
  apply bind_inv_Raise in H as [H | ([] & w1 & Hc & H)]; [discriminate H|].
  injection Hc as <-.
  apply bind_inv_Raise in H as [H | (loc & w1 & Hloc & H)].
  { unfold Charm.config_get in H.
    destruct (config self !! "location") eqn:El; [discriminate H|].
    injection H as <- <-. split.
    - left. exists "location". auto.
    - right. left. split; [reflexivity|]. exists cfg. auto. }
  apply config_get_inv in Hloc as [Hloc ->].
  rewrite (bind_Ok _ _ _ _ _ (config_get_Some _ _ _ _ Hpv)) in H.
  apply bind_inv_Raise in H as [H | ([] & w1 & Hl & H)]; [discriminate H|].
  injection Hl as <-.
  assert (Hz : forall w0, Charm.config_int self "port" w0 = (Ok (Ams.port cfg), w0)).
  { intros w0. unfold Charm.config_int.
    rewrite (bind_Ok _ _ _ _ _ (config_get_Some _ _ _ _ Hpv)).
    now rewrite Hint. }
  rewrite (bind_Ok _ _ _ _ _ (Hz _)) in H.
  apply bind_inv_Raise in H as [H | ([] & w1 & Hp & H)].
  - apply set_ports_inv in H as [(H & _) | (H & Hvalid & ->)]; [discriminate H|].
    injection H as ->. split.
    + right. right. exists pv, (Ams.port cfg). auto.
    + right. right. exists (Ams.port cfg), cfg, loc, pv. auto 10.
  - apply bind_inv_Raise in H as [H | ([] & w2 & _ & H)]; discriminate H.
Qed.

(* ===================================================================== *)
(** ** Every way through [_on_config_changed] *)
(* ===================================================================== *)

Lemma on_config_changed_cases (self : Env) (w : World) :
  Charm._on_config_changed self w =
    match Charm.resolve_store self
            (Wf.with_status (WaitingStatus "Configuring AMS") w) with
    | (Ok None, w1) => (Ok Charm.NotReady, w1)
    | (Ok (Some e), w1) => Charm.configure_service self e w1
    | (Raise ex, w1) => (Raise ex, w1)
    end.
Proof.
  unfold Charm._on_config_changed.
  unfold mbind at 1, M_bind at 1, bind at 1.
  change (set_status (WaitingStatus "Configuring AMS") w)
    with (Ok tt, Wf.with_status (WaitingStatus "Configuring AMS") w).
  cbv beta iota.
  unfold mbind, M_bind, bind.
  destruct (Charm.resolve_store self _) as [[[e|]|ex] w1]; reflexivity.
Qed.

(** A resolved store is ready, and resolving it changed nothing but the
    trace. *)
Lemma resolve_store_Some (self : Env) (w w1 : World) (e : Ams.ETCDConfig) :
  Charm.resolve_store self w = (Ok (Some e), w1) ->
  Ams.is_ready e = true
  /\ Wf.present self "use_embedded_etcd" = true
  /\ Obs.state_of w1 = Obs.state_of w.
Proof.
  intros H.
  destruct (config self !! "use_embedded_etcd") as [v|] eqn:E.
  2:{ rewrite (resolve_store_missing _ _ E) in H. discriminate. }
  rewrite (present_of_lookup _ _ _ E).
  destruct (truthy v) eqn:Ht.
  { rewrite (resolve_store_embedded _ _ E _ Ht) in H. injection H as <- <-.
    rewrite is_ready_new. auto. }
  destruct (etcd_is_available self) eqn:Ha.
  - rewrite (resolve_store_available _ _ E _ Ht Ha) in H. injection H as <- <-.
    split; [|split; reflexivity].
    unfold Ams.is_ready. cbn. rewrite (split_truthy "," _). apply orb_true_r.
  - rewrite (resolve_store_unavailable _ _ E _ Ht Ha) in H. discriminate.
Qed.

(** [resolve_store] raises only for the missing option, before anything. *)
Lemma resolve_store_Raise (self : Env) (w w1 : World) (ex : PyExn) :
  Charm.resolve_store self w = (Raise ex, w1) ->
  w1 = w /\ ex = KeyError "use_embedded_etcd"
  /\ config self !! "use_embedded_etcd" = None.
Proof.
  intros H.
  destruct (config self !! "use_embedded_etcd") as [v|] eqn:E.
  2:{ rewrite (resolve_store_missing _ _ E) in H. injection H as <- <-. auto. }
  destruct (truthy v) eqn:Ht.
  { rewrite (resolve_store_embedded _ _ E _ Ht) in H. discriminate. }
  destruct (etcd_is_available self) eqn:Ha.
  - rewrite (resolve_store_available _ _ E _ Ht Ha) in H. discriminate.
  - rewrite (resolve_store_unavailable _ _ E _ Ht Ha) in H. discriminate.
Qed.

(** X3. Take a configuration whose port options, when strings, are ASCII. A
    run of [_on_config_changed] returns (rather than raises) exactly when
    [use_embedded_etcd] is present and either the unit is blocked (store not
    embedded, etcd relation not available) or every other option is present,
    [int()] accepts [prometheus_target_port] and [port], and the port is one
    the model opens (1..65535). *)
Theorem X3_returns_iff (self : Env) (w : World) :
  Wf.plain_ports self = true ->
  ((exists o w', Charm._on_config_changed self w = (Ok o, w'))
   <-> (exists v,
          config self !! "use_embedded_etcd" = Some v
          /\ ((truthy v = false /\ etcd_is_available self = false)
              \/ Wf.complete self = true))).
Proof.
  intros _.
  rewrite on_config_changed_cases.
  set (w0 := Wf.with_status (WaitingStatus "Configuring AMS") w).
  split.
  - intros (o & w' & H).
    destruct (Charm.resolve_store self w0) as [[[e|]|ex] w1] eqn:Hres;
      [| |discriminate H].
    + apply resolve_store_Some in Hres as (_ & Hp & _).
      unfold Wf.present in Hp.
      destruct (config self !! "use_embedded_etcd") as [v|]; [|discriminate Hp].
      exists v. split; [reflexivity|]. right.
      apply configure_service_Ok in H as (cfg & loc & pv & H).
      now destruct_and!.
    + apply resolve_store_None in Hres as (v & E & Ht & Ha).
      exists v. auto.
  - intros (v & E & [[Ht Ha] | Hc]).
    + rewrite (resolve_store_unavailable _ _ E _ Ht Ha). eauto.
    + destruct (truthy v) eqn:Ht; [|destruct (etcd_is_available self) eqn:Ha].
      * pose proof (resolve_store_embedded _ _ E w0 Ht) as Hres.
        destruct (on_config_changed_configured _ _ _ _ Hc Hres)
          as (cfg & loc & pv & Hrun & _).
        rewrite on_config_changed_cases in Hrun. fold w0 in Hrun.
        rewrite Hres in Hrun. rewrite Hres. eauto.
      * pose proof (resolve_store_available _ _ E w0 Ht Ha) as Hres.
        cbv zeta in Hres.
        destruct (on_config_changed_configured _ _ _ _ Hc Hres)
          as (cfg & loc & pv & Hrun & _).
        rewrite on_config_changed_cases in Hrun. fold w0 in Hrun.
        rewrite Hres in Hrun. rewrite Hres. eauto.
      * rewrite (resolve_store_unavailable _ _ E _ Ht Ha). eauto.
Qed.

Lemma X3_witness :
  (exists o w',
     Charm._on_config_changed (Sample.env_with Sample.config true (Some "a,b"))
       Sample.world0 = (Ok o, w'))
  /\ ~ (exists o w',
          Charm._on_config_changed
            (Sample.env_with (<["port" := VInt 0]> Sample.config) true (Some "a,b"))
            Sample.world0 = (Ok o, w')).
Proof.
  split.
  - destruct (X3_returns_iff (Sample.env_with Sample.config true (Some "a,b"))
                Sample.world0) as [_ Hbw]; [reflexivity|].
    apply Hbw.
    exists (VBool false). split; [reflexivity | right; reflexivity].
  - intros H.
    destruct (X3_returns_iff
                (Sample.env_with (<["port" := VInt 0]> Sample.config) true
                   (Some "a,b"))
                Sample.world0) as [Hfw _]; [reflexivity|].
    apply Hfw in H as (v & E & [[Ht Ha] | Hc]); discriminate.
Defined.

(** The ways a run of [_on_config_changed] raises. *)
Lemma on_config_changed_Raise (self : Env) (w w' : World) (ex : PyExn) :
  Charm._on_config_changed self w = (Raise ex, w') ->
  let w0 := Wf.with_status (WaitingStatus "Configuring AMS") w in
  Obs.explains self ex
  /\ exists w1,
       Obs.state_of w1 = Obs.state_of w0
       /\ (w' = w1
           \/ (ex = KeyError "location"
               /\ exists cfg, w' = snd (snap_configure cfg w1)
                              /\ Ams.is_ready (Ams.store cfg) = true)
           \/ (exists p cfg location port_value,
                 ex = ModelError p
                 /\ w' = {| unit_status := unit_status w1; snap_config := Some cfg;
                            snap_location := Some (location, port_value);
                            snap_lxd := snap_lxd w1; unit_ports := [];
                            relation_data := relation_data w1;
                            next_key := next_key w1; trace := trace w1 |}
                 /\ Ams.is_ready (Ams.store cfg) = true
                 /\ config self !! "port" = Some port_value
                 /\ to_int port_value = inr p
                 /\ valid_port p = false)).
Proof.
  intros H w0. rewrite on_config_changed_cases in H. fold w0 in H.
  destruct (Charm.resolve_store self w0) as [[[e|]|ex0] w1] eqn:Hres.
  - apply resolve_store_Some in Hres as (Hready & _ & Hst).
    apply configure_service_Raise in H
      as [Hex [-> | [(-> & cfg & -> & Hs)
                    | (p & cfg & loc & pv & -> & -> & Hs & Hpv & Hint & Hvalid)]]].
    + split; [exact Hex|]. exists w1. auto.
    + split; [exact Hex|]. exists w1. split; [exact Hst|]. right. left.
      split; [reflexivity|]. exists cfg. split; [reflexivity|]. now rewrite Hs.
    + split; [exact Hex|]. exists w1. split; [exact Hst|]. right. right.
      exists p, cfg, loc, pv. rewrite Hs. auto 10.
  - discriminate H.
  - injection H as <- <-.
    apply resolve_store_Raise in Hres as (-> & -> & E).
    split; [left; eauto|]. exists w0. auto.
Qed.

(** X4. Take a configuration whose port options, when strings, are ASCII.
    Whatever a run of [_on_config_changed] raises is accounted for by the
    configuration: a [KeyError] names an option that is missing, a
    [ValueError] is the one [int()] gives for the value of
    [prometheus_target_port] or of [port], a [ModelError] is for the number
    of the [port] option, which is outside 1..65535; nothing else is
    raised. *)
Theorem X4_raises_only_for_missing_option_or_bad_port (self : Env) (w w' : World)
    (ex : PyExn) :
  Wf.plain_ports self = true ->
  Charm._on_config_changed self w = (Raise ex, w') ->
  (exists key, ex = KeyError key /\ config self !! key = None)
  \/ (exists key v,
        (key = "prometheus_target_port" \/ key = "port")
        /\ config self !! key = Some v
        /\ to_int v = inl ex)
  \/ (exists v p,
        ex = ModelError p
        /\ config self !! "port" = Some v
        /\ to_int v = inr p
        /\ valid_port p = false).
Proof.
  intros _ H. apply on_config_changed_Raise in H as [Hex _]. exact Hex.
Qed.

Lemma X4_witness :
  (exists key,
     ValueError "80 80" = KeyError key
     /\ config (Sample.env_with (<["port" := VStr "80 80"]> Sample.config) true None)
          !! key = None)
  \/ (exists key v,
        (key = "prometheus_target_port" \/ key = "port")
        /\ config (Sample.env_with (<["port" := VStr "80 80"]> Sample.config) true None)
             !! key = Some v
        /\ to_int v = inl (ValueError "80 80"))
  \/ (exists v p,
        ValueError "80 80" = ModelError p
        /\ config (Sample.env_with (<["port" := VStr "80 80"]> Sample.config) true None)
             !! "port" = Some v
        /\ to_int v = inr p
        /\ valid_port p = false).
Proof.
  apply (X4_raises_only_for_missing_option_or_bad_port
           (Sample.env_with (<["port" := VStr "80 80"]> Sample.config) true None)
           Sample.world0
           (snd (Charm._on_config_changed
                   (Sample.env_with (<["port" := VStr "80 80"]> Sample.config) true None)
                   Sample.world0))).
  - reflexivity.
  - vm_compute. reflexivity.
Defined.



(** X6. When a run of [_on_config_changed] goes through, the unit is active,
    the snap holds exactly the configuration built, its store is ready, its
    addresses are the private address of the unit, and the one port opened
    is the port of that configuration, which is [int()] of the [port] option
    given to [set_location]. The LXD material, the relation data and the key
    generator are as before. *)
Theorem X6_configured_run_postcondition (self : Env) (w w' : World)
    (cfg : Ams.ServiceConfig) :
  Charm._on_config_changed self w = (Ok (Charm.Configured cfg), w') ->
  unit_status w' = ActiveStatus
  /\ snap_config w' = Some cfg
  /\ unit_ports w' = [Ams.port cfg]
  /\ (exists location port_value,
        snap_location w' = Some (location, port_value)
        /\ config self !! "location" = Some location
        /\ config self !! "port" = Some port_value
        /\ to_int port_value = inr (Ams.port cfg))
  /\ Ams.is_ready (Ams.store cfg) = true
  /\ Ams.ip cfg = private_ip self
  /\ Ams.prom_ip (Ams.metrics cfg) = private_ip self
  /\ snap_lxd w' = snap_lxd w
  /\ relation_data w' = relation_data w
  /\ next_key w' = next_key w.
Proof.
  intros H. rewrite on_config_changed_cases in H.
  destruct (Charm.resolve_store self _) as [[[e|]|ex0] w1] eqn:Hres;
    [|discriminate H|discriminate H].
  apply resolve_store_Some in Hres as (Hready & _ & Hst).
  unfold Obs.state_of in Hst. cbn in Hst.
  injection Hst as Hs Hc Hl Hx Hp Hr Hk.
  apply configure_service_Ok in H
    as (cfg' & loc & pv & [= <-] & -> & <- & Hip & Hpip & Hloc & Hpv & Hint & _).
  cbn. repeat (split; [solve [reflexivity | assumption | eauto 10]|]).
  assumption.
Qed.

Lemma X6_witness :
  exists cfg w',
    Charm._on_config_changed (Sample.env_with Sample.config true (Some "a"))
      Sample.world0 = (Ok (Charm.Configured cfg), w')
    /\ unit_status w' = ActiveStatus
    /\ snap_config w' = Some cfg
    /\ unit_ports w' = [Ams.port cfg]
    /\ Ams.is_ready (Ams.store cfg) = true.
Proof.
  eexists _, _. split; [vm_compute; reflexivity|].
  destruct (X6_configured_run_postcondition
              (Sample.env_with Sample.config true (Some "a")) Sample.world0
              (snd (Charm._on_config_changed
                      (Sample.env_with Sample.config true (Some "a")) Sample.world0))
              (Ams.mkServiceConfig "10.0.0.1" 8444 (VStr "info")
                 (Ams.mkPrometheusConfig "10.0.0.1" 9104 (VStr "") (VStr "")
                    (VStr "") (VStr "") (VStr "") (VStr "/internal/1.0/metrics"))
                 (Ams.new_BackendConfig (VStr "10000-11000") (VStr "ams")
                    (VBool false) (VBool false))
                 (Ams.mkETCDConfig (VBool false) ["a"])))
    as (H1 & H2 & H3 & _ & H5 & _); [vm_compute; reflexivity|].
  split; [exact H1|]. split; [exact H2|]. split; [exact H3|]. exact H5.
Defined.

(* ===================================================================== *)
(** ** Reconciliation does not depend on the state of the unit *)
(* ===================================================================== *)

Lemma apply_no_update (w : World) : Obs.apply Obs.no_update w = w.
Proof. destruct w. unfold Obs.apply. cbn. now rewrite app_nil_r. Qed.

Lemma apply_then_update (d1 d2 : Obs.Update) (w : World) :
  Obs.apply d2 (Obs.apply d1 w) = Obs.apply (Obs.then_update d1 d2) w.
Proof.
  destruct d1 as [s1 c1 l1 p1 t1], d2 as [s2 c2 l2 p2 t2].
  unfold Obs.apply, Obs.then_update. cbn.
  rewrite app_assoc.
  destruct s2, c2, l2, p2; reflexivity.
Qed.

Section Oblivious.

Lemma oblivious_ret {A} (a : A) : Obs.oblivious (mret a).
Proof.
  exists (Ok a), Obs.no_update. intros w. now rewrite apply_no_update.
Qed.

Lemma oblivious_raise {A} (e : PyExn) : Obs.oblivious (@raise A e).
Proof.
  exists (Raise e), Obs.no_update. intros w. now rewrite apply_no_update.
Qed.

Lemma oblivious_bind {A B} (m : M A) (k : A -> M B) :
  Obs.oblivious m -> (forall a, Obs.oblivious (k a)) -> Obs.oblivious (m ≫= k).
Proof.
  intros ([a|e] & d & Hm) Hk.
  - destruct (Hk a) as (r' & d' & Hka).
    exists r', (Obs.then_update d d'). intros w.
    unfold mbind, M_bind, bind. now rewrite Hm, Hka, apply_then_update.
  - exists (Raise e), d. intros w.
    unfold mbind, M_bind, bind. now rewrite Hm.
Qed.

Lemma oblivious_of_sum {A} (r : PyExn + A) : Obs.oblivious (of_sum r).
Proof. destruct r; [apply oblivious_raise | apply oblivious_ret]. Qed.

Lemma oblivious_emit (e : Event) : Obs.oblivious (emit e).
Proof.
  exists (Ok tt), (Obs.mkUpdate None None None None [e]). intros w. reflexivity.
Qed.

Lemma oblivious_set_status (s : Status) : Obs.oblivious (set_status s).
Proof.
  exists (Ok tt), (Obs.mkUpdate (Some s) None None None []). intros w.
  unfold set_status, Obs.apply. cbn. now rewrite app_nil_r.
Qed.

Lemma oblivious_snap_configure (cfg : Ams.ServiceConfig) :
  Obs.oblivious (snap_configure cfg).
Proof.
  exists (Ok tt), (Obs.mkUpdate None (Some cfg) None None []). intros w.
  unfold snap_configure, Obs.apply. cbn. now rewrite app_nil_r.
Qed.

Lemma oblivious_snap_set_location (location port : PyVal) :
  Obs.oblivious (snap_set_location location port).
Proof.
  exists (Ok tt), (Obs.mkUpdate None None (Some (location, port)) None []). intros w.
  unfold snap_set_location, Obs.apply. cbn. now rewrite app_nil_r.
Qed.

Lemma oblivious_set_ports (port : Z) : Obs.oblivious (set_ports port).
Proof.
  exists (if valid_port port then Ok tt else Raise (ModelError port)),
    (Obs.mkUpdate None None None (Some (if valid_port port then [port] else [])) []).
  intros w. unfold set_ports, Obs.apply. cbn. now rewrite app_nil_r.
Qed.

Variable self : Env.

Lemma oblivious_config_get (key : string) :
  Obs.oblivious (Charm.config_get self key).
Proof.
  unfold Charm.config_get.
  destruct (config self !! key); [apply oblivious_ret | apply oblivious_raise].
Qed.

Lemma oblivious_config_int (key : string) :
  Obs.oblivious (Charm.config_int self key).
Proof.
  apply oblivious_bind; [apply oblivious_config_get | intros v].
  apply oblivious_of_sum.
Qed.

Lemma oblivious_resolve_store : Obs.oblivious (Charm.resolve_store self).
Proof.
  unfold Charm.resolve_store, Charm.etcd_available, Charm.etcd_get_config,
    Charm.log_received_servers.
  apply oblivious_bind; [apply oblivious_config_get | intros v].
  destruct (negb _); [|apply oblivious_ret].
  apply oblivious_bind.
  { apply oblivious_bind; [apply oblivious_emit | intros _; apply oblivious_ret]. }
  intros available. destruct (negb available).
  { apply oblivious_bind; [apply oblivious_set_status | intros _; apply oblivious_ret]. }
  apply oblivious_bind.
  { apply oblivious_bind; [apply oblivious_emit | intros _; apply oblivious_ret]. }
  intros cfg.
  apply oblivious_bind; [apply oblivious_emit | intros _].
  destruct (negb _); [|apply oblivious_ret].
  apply oblivious_bind; [apply oblivious_set_status | intros _; apply oblivious_ret].
Qed.

Lemma oblivious_configure_service (e : Ams.ETCDConfig) :
  Obs.oblivious (Charm.configure_service self e).
Proof.
  unfold Charm.configure_service, Charm.build_backend, Charm.build_metrics,
    Charm.build_service.
  repeat first
    [ apply oblivious_ret
    | apply oblivious_config_get
    | apply oblivious_config_int
    | apply oblivious_bind; [|intros ?]
    | apply oblivious_snap_configure
    | apply oblivious_snap_set_location
    | apply oblivious_set_ports
    | apply oblivious_set_status
    | match goal with |- Obs.oblivious (if ?c then _ else _) => destruct c end ].
Qed.

Lemma oblivious_on_config_changed : Obs.oblivious (Charm._on_config_changed self).
Proof.
  unfold Charm._on_config_changed.
  apply oblivious_bind; [apply oblivious_set_status | intros _].
  apply oblivious_bind; [apply oblivious_resolve_store | intros [e|]].
  - apply oblivious_configure_service.
  - apply oblivious_ret.
Qed.

End Oblivious.

(** X7. [_on_config_changed] does not look at the state of the unit: its
    outcome (configured, not ready, or the exception raised) is the same in
    every world, and running it a second time with the same inputs changes
    nothing but the trace of calls. *)
Theorem X7_reconciliation_is_idempotent (self : Env) :
  (forall w1 w2 : World,
     fst (Charm._on_config_changed self w1) = fst (Charm._on_config_changed self w2))
  /\ (forall w : World,
        let w' := snd (Charm._on_config_changed self w) in
        let w'' := snd (Charm._on_config_changed self w') in
        unit_status w'' = unit_status w'
        /\ snap_config w'' = snap_config w'
        /\ snap_location w'' = snap_location w'
        /\ unit_ports w'' = unit_ports w'
        /\ snap_lxd w'' = snap_lxd w'
        /\ relation_data w'' = relation_data w'
        /\ next_key w'' = next_key w').
Proof.
  destruct (oblivious_on_config_changed self) as (r & d & H).
  split.
  - intros w1 w2. now rewrite !H.
  - intros w. cbv zeta. rewrite !H. cbn [snd]. rewrite ?H. cbn [snd].
    destruct d as [s c l p t]. unfold Obs.apply. cbn.
    destruct s, c, l, p; repeat split; reflexivity.
Qed.

(* ===================================================================== *)
(** ** Certificate issuance and the relation-joined handler, further *)
(* ===================================================================== *)

(** X8. [_generate_selfsigned_cert] raises exactly when one of the three
    identities is empty, and the message names the first empty one in the
    order hostname, public IP, private IP. *)
Theorem X8_issuance_reports_first_empty_identity (hostname public_ip private_ip : string)
    (w : World) :
  ((exists ex w',
      Charm._generate_selfsigned_cert hostname public_ip private_ip w = (Raise ex, w'))
   <-> hostname = "" \/ public_ip = "" \/ private_ip = "")
  /\ (hostname = "" ->
      Charm._generate_selfsigned_cert hostname public_ip private_ip w =
        (Raise (Exception "A hostname is required"), w))
  /\ (hostname <> "" -> public_ip = "" ->
      Charm._generate_selfsigned_cert hostname public_ip private_ip w =
        (Raise (Exception "A public IP is required"), w))
  /\ (hostname <> "" -> public_ip <> "" -> private_ip = "" ->
      Charm._generate_selfsigned_cert hostname public_ip private_ip w =
        (Raise (Exception "A private IP is required"), w)).
Proof.
  split; [split|].
  - intros (ex & w' & H).
    destruct (string_dec hostname "") as [|Hh]; [auto|].
    destruct (string_dec public_ip "") as [|Hpub]; [auto|].
    destruct (string_dec private_ip "") as [|Hpriv]; [auto|].
    rewrite (generate_selfsigned_cert_run _ _ _ w Hh Hpub Hpriv) in H.
    discriminate H.
  - intros H.
    destruct (generate_selfsigned_cert_guard _ _ _ w H) as (msg & Hrun & _).
    eauto.
  - unfold Charm._generate_selfsigned_cert.
    split; [|split].
    + intros ->. reflexivity.
    + intros Hh ->. apply str_truthy_true in Hh. now rewrite Hh.
    + intros Hh Hpub ->. apply str_truthy_true in Hh, Hpub. now rewrite Hh, Hpub.
Qed.

Lemma X8_witness :
  Charm._generate_selfsigned_cert "ams-0" "" "" Sample.world0 =
    (Raise (Exception "A public IP is required"), Sample.world0).
Proof.
  apply (proj1 (proj2 (proj2 (X8_issuance_reports_first_empty_identity
                                "ams-0" "" "" Sample.world0))));
    [discriminate | reflexivity].
Defined.

(** The bag of a relation after a value was written to a bag. *)
Lemma relation_bag_insert (relation relation' : Z) (bag : gmap string (list Tls.Certificate))
    (w w' : World) :
  relation_data w' = <[relation := bag]> (relation_data w) ->
  relation_bag relation' w' =
    if decide (relation = relation') then bag else relation_bag relation' w.
Proof.
  intros H. unfold relation_bag. rewrite H, lookup_insert.
  now destruct (decide (relation = relation')).
Qed.

(** The complete run of [_on_lxd_integrator_joined] on two non-empty
    addresses. *)
Lemma on_lxd_integrator_joined_run (self : Env) (event : RelationJoinedEvent)
    (w : World) :
  public_ip self <> "" -> private_ip self <> "" ->
  let ca_key := Tls.mkPrivateKey 4096 (next_key w) in
  let key := Tls.mkPrivateKey 4096 (S (next_key w)) in
  let cert :=
    Tls.mkCertificate
      (Tls.mkCsr key (public_ip self)
         [public_ip self; private_ip self; public_ip self]
         [public_ip self; private_ip self])
      (Tls.mkCa ca_key (public_ip self)) ca_key in
  exists calls,
    Charm._on_lxd_integrator_joined self event w =
      (Ok tt,
       {| unit_status := unit_status w; snap_config := snap_config w;
          snap_location := snap_location w; snap_lxd := Some (cert, key);
          unit_ports := unit_ports w;
          relation_data :=
            <[relation_id event :=
                <["client_certificates" := [cert]]>
                  (relation_bag (relation_id event) w)]> (relation_data w);
          next_key := S (S (next_key w));
          trace := trace w ++ calls |}).
Proof.
  intros Hpub Hpriv.
  pose proof (generate_selfsigned_cert_run (public_ip self) (public_ip self)
                (private_ip self) w Hpub Hpub Hpriv) as Hrun.
  cbv zeta in *.
  unfold Charm._on_lxd_integrator_joined.
  rewrite (bind_Ok _ _ _ _ _ Hrun). run_exec. cbn.
  eexists. reflexivity.
Qed.

(** X9. Two relation-joined events in a row each issue a certificate of
    their own: the two leaf keys and the two CA keys are four different
    keys, four serials of the key generator are used, and the snap holds the
    second certificate. Each event publishes its certificate in the data bag
    of its own relation. When both events are of the same relation, the
    second certificate replaces the first one there (the bag holds one
    certificate, not two); when they are of different relations, the first
    relation keeps the first certificate, which is no longer the one
    installed in the snap. *)
Theorem X9_each_join_issues_anew (self1 self2 : Env) (event1 event2 : RelationJoinedEvent)
    (w : World) :
  public_ip self1 <> "" -> private_ip self1 <> "" ->
  public_ip self2 <> "" -> private_ip self2 <> "" ->
  exists c1 k1 w1 c2 k2 w2,
    Charm._on_lxd_integrator_joined self1 event1 w = (Ok tt, w1)
    /\ Charm._on_lxd_integrator_joined self2 event2 w1 = (Ok tt, w2)
    /\ snap_lxd w1 = Some (c1, k1)
    /\ snap_lxd w2 = Some (c2, k2)
    /\ NoDup [Tls.cert_ca_key c1; k1; Tls.cert_ca_key c2; k2]
    /\ c1 <> c2
    /\ relation_bag (relation_id event1) w1 !! "client_certificates" = Some [c1]
    /\ relation_bag (relation_id event2) w2 !! "client_certificates" = Some [c2]
    /\ (relation_id event1 <> relation_id event2 ->
        relation_bag (relation_id event1) w2 !! "client_certificates" = Some [c1])
    /\ next_key w2 = (next_key w + 4)%nat.
Proof.
  intros Hpub1 Hpriv1 Hpub2 Hpriv2.
  destruct (on_lxd_integrator_joined_run self1 event1 w Hpub1 Hpriv1) as [calls1 H1].
  cbv zeta in H1.
  match type of H1 with _ = (_, ?x) => set (w1 := x) in * end.
  destruct (on_lxd_integrator_joined_run self2 event2 w1 Hpub2 Hpriv2) as [calls2 H2].
  cbv zeta in H2.
  match type of H2 with _ = (_, ?x) => set (w2 := x) in * end.
  pose proof (fun r bag (H : relation_data w1 = <[relation_id event1 := bag]> (relation_data w)) =>
                relation_bag_insert (relation_id event1) r bag w w1 H) as B1.
  pose proof (fun r bag (H : relation_data w2 = <[relation_id event2 := bag]> (relation_data w1)) =>
                relation_bag_insert (relation_id event2) r bag w1 w2 H) as B2.
  eexists _, _, w1, _, _, w2.
  split; [exact H1|]. split; [exact H2|].
  split; [reflexivity|]. split; [reflexivity|].
  split.
  { cbn. repeat constructor; rewrite ?list_elem_of_In; cbn;
      intros H; repeat destruct H as [H|H]; try contradiction;
      injection H; lia. }
  split. { cbn. intros H. injection H. lia. }
  split.
  { erewrite B1 by reflexivity. rewrite decide_True by reflexivity.
    apply lookup_insert_eq. }
  split.
  { erewrite B2 by reflexivity. rewrite decide_True by reflexivity.
    apply lookup_insert_eq. }
  split.
  { intros Hne. erewrite B2 by reflexivity. rewrite decide_False by congruence.
    erewrite B1 by reflexivity. rewrite decide_True by reflexivity.
    apply lookup_insert_eq. }
  cbn. lia.
Qed.

Lemma X9_witness :
  exists c1 k1 w1 c2 k2 w2,
    Charm._on_lxd_integrator_joined (Sample.env_with Sample.config true None)
      Sample.joined Sample.world0 = (Ok tt, w1)
    /\ Charm._on_lxd_integrator_joined (Sample.env_with Sample.config true None)
         Sample.joined' w1 = (Ok tt, w2)
    /\ snap_lxd w1 = Some (c1, k1)
    /\ snap_lxd w2 = Some (c2, k2)
    /\ NoDup [Tls.cert_ca_key c1; k1; Tls.cert_ca_key c2; k2]
    /\ c1 <> c2
    /\ relation_bag 7 w1 !! "client_certificates" = Some [c1]
    /\ relation_bag 8 w2 !! "client_certificates" = Some [c2]
    /\ (7 <> 8 -> relation_bag 7 w2 !! "client_certificates" = Some [c1])
    /\ next_key w2 = (next_key Sample.world0 + 4)%nat.
Proof.
  apply (X9_each_join_issues_anew (Sample.env_with Sample.config true None)
           (Sample.env_with Sample.config true None) Sample.joined Sample.joined'
           Sample.world0);
    discriminate.
Defined.

(** The run of [_on_lxd_integrator_joined] when an address is empty. *)
Lemma on_lxd_integrator_joined_empty (self : Env) (event : RelationJoinedEvent)
    (w : World) :
  public_ip self = "" \/ private_ip self = "" ->
  Charm._on_lxd_integrator_joined self event w =
    (Raise (Exception (if String.eqb (public_ip self) ""
                       then "A hostname is required"
                       else "A private IP is required")), w).
Proof.
  intros H. unfold Charm._on_lxd_integrator_joined.
  apply bind_Raise. unfold Charm._generate_selfsigned_cert, str_truthy.
  destruct (String.eqb (public_ip self) "") eqn:Epub; [reflexivity|].
  cbn [negb].
  destruct (String.eqb (private_ip self) "") eqn:Epriv; [reflexivity|].
  apply String.eqb_neq in Epub, Epriv. destruct H; contradiction.
Qed.

(** X10. On the relation-joined path an empty public address is reported as
    a missing hostname and an empty private address as a missing private IP;
    the message "A public IP is required" cannot be raised there. When the
    handler raises, nothing has been generated, installed or published. *)
Theorem X10_join_never_reports_a_missing_public_ip (self : Env)
    (event : RelationJoinedEvent) (w : World) :
  (public_ip self = "" ->
   Charm._on_lxd_integrator_joined self event w =
     (Raise (Exception "A hostname is required"), w))
  /\ (public_ip self <> "" -> private_ip self = "" ->
      Charm._on_lxd_integrator_joined self event w =
        (Raise (Exception "A private IP is required"), w))
  /\ (forall ex w',
        Charm._on_lxd_integrator_joined self event w = (Raise ex, w') ->
        w' = w
        /\ ex <> Exception "A public IP is required"
        /\ (public_ip self = "" \/ private_ip self = "")).
Proof.
  split; [|split].
  - intros Hpub. rewrite on_lxd_integrator_joined_empty by auto.
    now rewrite Hpub.
  - intros Hpub Hpriv. rewrite on_lxd_integrator_joined_empty by auto.
    apply String.eqb_neq in Hpub. now rewrite Hpub.
  - intros ex w' H.
    destruct (string_dec (public_ip self) "") as [Hpub|Hpub].
    { rewrite on_lxd_integrator_joined_empty in H by auto.
      rewrite Hpub in H. injection H as <- <-. repeat split; [discriminate | auto]. }
    destruct (string_dec (private_ip self) "") as [Hpriv|Hpriv].
    { rewrite on_lxd_integrator_joined_empty in H by auto.
      apply String.eqb_neq in Hpub. rewrite Hpub in H.
      injection H as <- <-. repeat split; [discriminate | auto]. }
    destruct (on_lxd_integrator_joined_run self event w Hpub Hpriv) as [calls Hrun].
    cbv zeta in Hrun. rewrite Hrun in H. discriminate H.
Qed.

Lemma X10_witness :
  Charm._on_lxd_integrator_joined
    {| config := Sample.config; etcd_is_available := false; etcd_config := ∅;
       public_ip := ""; private_ip := "10.0.0.1" |}
    Sample.joined Sample.world0 =
    (Raise (Exception "A hostname is required"), Sample.world0).
Proof.
  apply (proj1 (X10_join_never_reports_a_missing_public_ip
                  {| config := Sample.config; etcd_is_available := false;
                     etcd_config := ∅; public_ip := ""; private_ip := "10.0.0.1" |}
                  Sample.joined Sample.world0)).
  reflexivity.
Defined.

(** What [_on_lxd_integrator_joined] leaves alone, whatever its outcome. *)
Lemma on_lxd_integrator_joined_frame (self : Env) (event : RelationJoinedEvent)
    (w : World) :
  let w' := snd (Charm._on_lxd_integrator_joined self event w) in
  unit_status w' = unit_status w
  /\ snap_config w' = snap_config w
  /\ snap_location w' = snap_location w
  /\ unit_ports w' = unit_ports w.
Proof.
  cbv zeta.
  destruct (string_dec (public_ip self) "") as [Hpub|Hpub].
  { rewrite on_lxd_integrator_joined_empty by auto. auto. }
  destruct (string_dec (private_ip self) "") as [Hpriv|Hpriv].
  { rewrite on_lxd_integrator_joined_empty by auto. auto. }
  destruct (on_lxd_integrator_joined_run self event w Hpub Hpriv) as [calls Hrun].
  cbv zeta in Hrun. rewrite Hrun. auto.
Qed.

(** X11. Whatever its outcome, [_on_lxd_integrator_joined] leaves the unit
    status, the configuration and location of the snap and the opened ports
    alone, writes nothing to the data bag of a relation other than the one
    that fired and no key of that bag other than [client_certificates], and
    never moves the key generator backwards. *)
Theorem X11_join_frame (self : Env) (event : RelationJoinedEvent) (w : World) :
  let w' := snd (Charm._on_lxd_integrator_joined self event w) in
  unit_status w' = unit_status w
  /\ snap_config w' = snap_config w
  /\ snap_location w' = snap_location w
  /\ unit_ports w' = unit_ports w
  /\ (forall relation key,
        relation <> relation_id event \/ key <> "client_certificates" ->
        relation_bag relation w' !! key = relation_bag relation w !! key)
  /\ (next_key w <= next_key w')%nat.
Proof.
  cbv zeta.
  destruct (string_dec (public_ip self) "") as [Hpub|Hpub].
  { rewrite on_lxd_integrator_joined_empty by auto. cbn [snd].
    repeat split; auto. }
  destruct (string_dec (private_ip self) "") as [Hpriv|Hpriv].
  { rewrite on_lxd_integrator_joined_empty by auto. cbn [snd].
    repeat split; auto. }
  destruct (on_lxd_integrator_joined_run self event w Hpub Hpriv) as [calls Hrun].
  cbv zeta in Hrun. rewrite Hrun. cbn [snd].
  split; [reflexivity|]. split; [reflexivity|].
  split; [reflexivity|]. split; [reflexivity|].
  split; [|cbn; lia].
  intros relation key Hneq.
  erewrite relation_bag_insert by reflexivity.
  destruct (decide (relation_id event = relation)) as [<-|Hr]; [|reflexivity].
  destruct Hneq as [Hneq | Hneq]; [contradiction|].
  now rewrite lookup_insert_ne.
Qed.

(* ===================================================================== *)
(** ** The etcd-available handler *)
(* ===================================================================== *)

Import Juju.

Lemma lift_run {A} (m : M A) (u : Unit) :
  lift m u =
    (fst (m (world u)),
     {| world := snd (m (world u)); snap_installed := snap_installed u;
        workload_version := workload_version u; snap_etcd := snap_etcd u |}).
Proof. unfold lift. now destruct (m (world u)). Qed.

Lemma bindU_Ok {A B} (m : MU A) (k : A -> MU B) (u u' : Unit) (a : A) :
  m u = (Ok a, u') -> (m ≫= k) u = k a u'.
Proof. intros H. unfold mbind, MU_bind, bindU. now rewrite H. Qed.

Lemma bindU_Raise {A B} (m : MU A) (k : A -> MU B) (u u' : Unit) (e : PyExn) :
  m u = (Raise e, u') -> (m ≫= k) u = (Raise e, u').
Proof. intros H. unfold mbind, MU_bind, bindU. now rewrite H. Qed.

Lemma etcd_get_config_run (host : Host) (u : Unit) :
  lift (Charm.etcd_get_config (env host)) u =
    (Ok (etcd_config (env host)), after_get_config u).
Proof. reflexivity. Qed.

(** The run of [_on_etcd_available] when the three credentials are there. *)
Lemma on_etcd_available_run (host : Host) (u : Unit) (ca cert key : string) :
  etcd_config (env host) !! "ca" = Some ca ->
  etcd_config (env host) !! "cert" = Some cert ->
  etcd_config (env host) !! "key" = Some key ->
  _on_etcd_available host u =
    lift (Charm._on_config_changed (env host))
      {| world := world (after_get_config u);
         snap_installed := snap_installed u;
         workload_version := workload_version u;
         snap_etcd := Some (ca, cert, key) |}.
Proof.
  intros Hca Hcert Hkey. unfold _on_etcd_available.
  rewrite (bindU_Ok _ _ _ _ _ (etcd_get_config_run host u)).
  unfold dict_get. rewrite Hca, Hcert, Hkey. reflexivity.
Qed.

(** The run of [_on_etcd_available] when a credential is missing. *)
Lemma on_etcd_available_missing (host : Host) (u : Unit) :
  let cfg := etcd_config (env host) in
  cfg !! "ca" = None \/ cfg !! "cert" = None \/ cfg !! "key" = None ->
  _on_etcd_available host u =
    (Raise (KeyError
              match cfg !! "ca", cfg !! "cert" with
              | None, _ => "ca"
              | Some _, None => "cert"
              | Some _, Some _ => "key"
              end),
     after_get_config u).
Proof.
  intros cfg H. unfold _on_etcd_available.
  rewrite (bindU_Ok _ _ _ _ _ (etcd_get_config_run host u)).
  unfold dict_get. fold cfg.
  destruct (cfg !! "ca"); [|reflexivity].
  destruct (cfg !! "cert"); [|reflexivity].
  destruct (cfg !! "key"); [|reflexivity].
  destruct H as [H | [H | H]]; discriminate H.
Qed.

(** X12. When the dictionary of the etcd relation lacks one of [ca], [cert]
    and [key], [_on_etcd_available] raises the [KeyError] of the first one
    missing, in that order; the snap gets no credentials, the configuration
    is not reconciled (the unit status and everything else stay as they
    were), and the one call made is [get_config]. *)
Theorem X12_etcd_available_needs_all_credentials (host : Host) (u : Unit) :
  let cfg := etcd_config (env host) in
  cfg !! "ca" = None \/ cfg !! "cert" = None \/ cfg !! "key" = None ->
  exists key u',
    _on_etcd_available host u = (Raise (KeyError key), u')
    /\ cfg !! key = None
    /\ (key = "ca"
        \/ (key = "cert" /\ is_Some (cfg !! "ca"))
        \/ (key = "key" /\ is_Some (cfg !! "ca") /\ is_Some (cfg !! "cert")))
    /\ snap_etcd u' = snap_etcd u
    /\ snap_installed u' = snap_installed u
    /\ workload_version u' = workload_version u
    /\ Obs.state_of (world u') = Obs.state_of (world u)
    /\ trace (world u') = (trace (world u) ++ [EtcdGetConfig])%list.
Proof.
  intros cfg H. eexists _, _.
  split; [apply (on_etcd_available_missing host u H)|]. fold cfg.
  destruct (cfg !! "ca") eqn:Eca;
    [destruct (cfg !! "cert") eqn:Ecert; [destruct (cfg !! "key") eqn:Ekey|]|].
  - destruct H as [H | [H | H]]; discriminate H.
  - repeat split; eauto 10.
  - repeat split; eauto 10.
  - repeat split; eauto 10.
Qed.

Lemma X12_witness :
  exists key u',
    _on_etcd_available
      (host_with Sample.config true [("ca", "CA"); ("key", "KEY")]) unit0 =
      (Raise (KeyError key), u')
    /\ key = "cert"
    /\ snap_etcd u' = None
    /\ unit_status (world u') = unit_status (world unit0).
Proof.
  destruct (X12_etcd_available_needs_all_credentials
              (host_with Sample.config true [("ca", "CA"); ("key", "KEY")]) unit0)
    as (key & u' & Hrun & Hnone & Hkey & He & _ & _ & Hst & _).
  { right. left. reflexivity. }
  exists key, u'. split; [exact Hrun|].
  split.
  { destruct Hkey as [-> | [[-> _] | [-> _]]];
      [discriminate Hnone | reflexivity | discriminate Hnone]. }
  split; [exact He|].
  unfold Obs.state_of in Hst. congruence.
Defined.

(** X13. When the dictionary of the etcd relation has [ca], [cert] and [key],
    [_on_etcd_available] gives them to the snap and then reconciles the
    configuration: its outcome is the outcome of [_on_config_changed], the
    credentials stay installed whatever that outcome is, and for a complete
    configuration without embedded store and with the relation available the
    unit ends active with the servers of the connection string. *)
Theorem X13_etcd_available_installs_then_reconciles (host : Host) (u : Unit)
    (ca cert key : string) :
  etcd_config (env host) !! "ca" = Some ca ->
  etcd_config (env host) !! "cert" = Some cert ->
  etcd_config (env host) !! "key" = Some key ->
  snap_etcd (snd (_on_etcd_available host u)) = Some (ca, cert, key)
  /\ fst (_on_etcd_available host u) =
       fst (Charm._on_config_changed (env host) (world u))
  /\ world (snd (_on_etcd_available host u)) =
       snd (Charm._on_config_changed (env host) (world (after_get_config u)))
  /\ (forall v,
        config (env host) !! "use_embedded_etcd" = Some v ->
        truthy v = false ->
        etcd_is_available (env host) = true ->
        Wf.complete (env host) = true ->
        exists cfg u',
          _on_etcd_available host u = (Ok (Charm.Configured cfg), u')
          /\ unit_status (world u') = ActiveStatus
          /\ snap_config (world u') = Some cfg
          /\ Ams.servers (Ams.store cfg) =
               split "," (default "" (etcd_config (env host) !! "connection_string"))).
Proof.
  intros Hca Hcert Hkey.
  rewrite (on_etcd_available_run host u ca cert key Hca Hcert Hkey).
  rewrite lift_run. cbn [fst snd snap_etcd world].
  split; [reflexivity|].
  split.
  { destruct (oblivious_on_config_changed (env host)) as (r & d & H).
    now rewrite !H. }
  split; [reflexivity|].
  intros v E Ht Ha Hc.
  set (w1 := world (after_get_config u)).
  pose proof (resolve_store_available _ _ E
                (Wf.with_status (WaitingStatus "Configuring AMS") w1) Ht Ha) as Hres.
  cbv zeta in Hres.
  destruct (on_config_changed_configured _ _ _ _ Hc Hres)
    as (cfg & loc & pv & Hrun & Hstore & _).
  exists cfg. eexists. rewrite Hrun. cbn [fst snd].
  split; [reflexivity|]. cbn. rewrite Hstore. repeat split; reflexivity.
Qed.

Lemma X13_witness :
  exists cfg u',
    _on_etcd_available
      (host_with Sample.config true
         [("ca", "CA"); ("cert", "CERT"); ("key", "KEY");
          ("connection_string", "10.0.0.5:2379")])
      unit0 = (Ok (Charm.Configured cfg), u')
    /\ unit_status (world u') = ActiveStatus
    /\ snap_config (world u') = Some cfg
    /\ Ams.servers (Ams.store cfg) = ["10.0.0.5:2379"].
Proof.
  apply (proj2 (proj2 (proj2 (X13_etcd_available_installs_then_reconciles
           (host_with Sample.config true
              [("ca", "CA"); ("cert", "CERT"); ("key", "KEY");
               ("connection_string", "10.0.0.5:2379")])
           unit0 "CA" "CERT" "KEY" eq_refl eq_refl eq_refl))) (VBool false));
    reflexivity.
Defined.

(* ===================================================================== *)
(** ** The observers *)
(* ===================================================================== *)

(** What [_on_config_changed] never writes, whatever its outcome. *)
Lemma on_config_changed_frame (self : Env) (w : World) :
  let w' := snd (Charm._on_config_changed self w) in
  snap_lxd w' = snap_lxd w
  /\ relation_data w' = relation_data w
  /\ next_key w' = next_key w.
Proof.
  destruct (oblivious_on_config_changed self) as (r & d & H).
  cbv zeta. rewrite H. repeat split; reflexivity.
Qed.

Lemma dispatch_Install (host : Host) (u : Unit) :
  dispatch Install host u =
    (Ok tt,
     {| world := world u; snap_installed := true;
        workload_version := Some (snap_version host);
        snap_etcd := snap_etcd u |}).
Proof. reflexivity. Qed.

Lemma dispatch_ConfigChanged (host : Host) (u : Unit) :
  snd (dispatch ConfigChanged host u) =
    {| world := snd (Charm._on_config_changed (env host) (world u));
       snap_installed := snap_installed u;
       workload_version := workload_version u; snap_etcd := snap_etcd u |}.
Proof.
  cbn [dispatch]. unfold mbind, MU_bind, bindU. rewrite lift_run.
  now destruct (fst (Charm._on_config_changed (env host) (world u))).
Qed.

Lemma dispatch_LxdClusterRelationJoined (event : RelationJoinedEvent)
    (host : Host) (u : Unit) :
  snd (dispatch (LxdClusterRelationJoined event) host u) =
    {| world := snd (Charm._on_lxd_integrator_joined (env host) event (world u));
       snap_installed := snap_installed u;
       workload_version := workload_version u; snap_etcd := snap_etcd u |}.
Proof. cbn [dispatch]. now rewrite lift_run. Qed.

Lemma dispatch_EtcdAvailable (host : Host) (u : Unit) :
  let u' := snd (dispatch EtcdAvailable host u) in
  snap_installed u' = snap_installed u
  /\ workload_version u' = workload_version u
  /\ (world u' = world (after_get_config u)
      \/ world u' =
           snd (Charm._on_config_changed (env host) (world (after_get_config u)))).
Proof.
  cbv zeta. cbn [dispatch]. unfold mbind, MU_bind, bindU.
  destruct (etcd_config (env host) !! "ca") as [ca|] eqn:Hca;
    [destruct (etcd_config (env host) !! "cert") as [cert|] eqn:Hcert;
     [destruct (etcd_config (env host) !! "key") as [key|] eqn:Hkey|]|].
  - rewrite (on_etcd_available_run host u ca cert key Hca Hcert Hkey), lift_run.
    destruct (fst (Charm._on_config_changed _ _)); cbn; auto.
  - rewrite on_etcd_available_missing by auto. cbn; auto.
  - rewrite on_etcd_available_missing by auto. cbn; auto.
  - rewrite on_etcd_available_missing by auto. cbn; auto.
Qed.

(** X14. Which observer writes what, whatever its outcome: only the install
    event marks the snap installed and sets the workload version (and it
    does nothing else: in particular it never blocks the unit); only the
    etcd-available event touches the etcd credentials; only the
    relation-joined event touches the LXD material, the relation data and
    the key generator; and the unit status, the configuration and location
    of the snap and the opened ports are written by the config-changed and
    etcd-available events only. *)
Theorem X14_what_each_event_writes (event : CharmEvent) (host : Host) (u : Unit) :
  let u' := snd (dispatch event host u) in
  (event = Install ->
   fst (dispatch event host u) = Ok tt
   /\ snap_installed u' = true
   /\ workload_version u' = Some (snap_version host)
   /\ world u' = world u)
  /\ (event <> Install ->
      snap_installed u' = snap_installed u
      /\ workload_version u' = workload_version u)
  /\ (event <> EtcdAvailable -> snap_etcd u' = snap_etcd u)
  /\ ((forall joined, event <> LxdClusterRelationJoined joined) ->
      snap_lxd (world u') = snap_lxd (world u)
      /\ relation_data (world u') = relation_data (world u)
      /\ next_key (world u') = next_key (world u))
  /\ (event = Install \/ (exists joined, event = LxdClusterRelationJoined joined) ->
      unit_status (world u') = unit_status (world u)
      /\ snap_config (world u') = snap_config (world u)
      /\ snap_location (world u') = snap_location (world u)
      /\ unit_ports (world u') = unit_ports (world u)).
Proof.
  cbv zeta.
  pose proof (on_config_changed_frame (env host)) as Hcc. cbv zeta in Hcc.
  destruct event as [| | |joined];
    (split; [intros Hev | split; [intros Hev | split; [intros Hev | split; intros Hev]]]);
    try (exfalso; congruence);
    try (exfalso; destruct Hev as [Hev | [? Hev]]; congruence);
    try (exfalso; apply (Hev joined); reflexivity);
    clear Hev.
  - rewrite dispatch_Install. cbn. repeat split; reflexivity.
  - rewrite dispatch_Install. reflexivity.
  - rewrite dispatch_Install. cbn. repeat split; reflexivity.
  - rewrite dispatch_Install. cbn. repeat split; reflexivity.
  - rewrite dispatch_ConfigChanged. cbn. split; reflexivity.
  - rewrite dispatch_ConfigChanged. reflexivity.
  - rewrite dispatch_ConfigChanged. cbn. apply Hcc.
  - destruct (dispatch_EtcdAvailable host u) as (H1 & H2 & _). cbv zeta in *. auto.
  - destruct (dispatch_EtcdAvailable host u) as (_ & _ & [H3 | H3]);
      cbv zeta in *; rewrite H3; [repeat split; reflexivity|].
    destruct (Hcc (world (after_get_config u))) as (-> & -> & ->).
    repeat split; reflexivity.
  - rewrite dispatch_LxdClusterRelationJoined. cbn. split; reflexivity.
  - rewrite dispatch_LxdClusterRelationJoined. reflexivity.
  - rewrite dispatch_LxdClusterRelationJoined. cbn.
    apply (on_lxd_integrator_joined_frame (env host) joined (world u)).
Qed.

(* ===================================================================== *)
(** ** Invariants of the unit *)
(* ===================================================================== *)

(** The configuration held by the snap after a run of [_on_config_changed]
    is the one held before, or a new one with a ready store. *)
Lemma on_config_changed_snap_config (self : Env) (w : World) :
  let w' := snd (Charm._on_config_changed self w) in
  snap_config w' = snap_config w
  \/ exists cfg, snap_config w' = Some cfg /\ Ams.is_ready (Ams.store cfg) = true.
Proof.
  cbv zeta. rewrite on_config_changed_cases.
  destruct (Charm.resolve_store self _) as [[[e|]|ex0] w1] eqn:Hres.
  - apply resolve_store_Some in Hres as (Hready & _ & Hst).
    unfold Obs.state_of in Hst. cbn in Hst. injection Hst as _ Hc _ _ _ _ _.
    destruct (Charm.configure_service self e w1) as [[o|ex] w'] eqn:H.
    + apply configure_service_Ok in H as (cfg & loc & pv & _ & -> & Hs & _).
      right. exists cfg. split; [reflexivity | now rewrite Hs].
    + apply configure_service_Raise in H
        as [_ [-> | [(_ & cfg & -> & Hs) | (p & cfg & loc & pv & _ & -> & Hs & _)]]].
      * left. exact Hc.
      * right. exists cfg. split; [reflexivity | now rewrite Hs].
      * right. exists cfg. split; [reflexivity | now rewrite Hs].
  - left. now apply resolve_store_frame in Hres as (Hc & _).
  - left. now apply resolve_store_frame in Hres as (Hc & _).
Qed.

Lemma applied_ready_step (w w' : World) :
  (snap_config w' = snap_config w
   \/ exists cfg, snap_config w' = Some cfg /\ Ams.is_ready (Ams.store cfg) = true) ->
  Obs.applied_ready w -> Obs.applied_ready w'.
Proof.
  intros [H | (cfg & H & Hr)] Hw cfg' Hcfg'.
  - apply Hw. now rewrite <- H.
  - congruence.
Qed.

(** X15. Whatever events the unit handles and however they end, the
    configuration held by the snap, if there is one, has a ready store: each
    observer keeps this true. *)
Theorem X15_applied_configuration_is_ready (event : CharmEvent) (host : Host) (u : Unit) :
  Obs.applied_ready (world u) ->
  Obs.applied_ready (world (snd (dispatch event host u))).
Proof.
  intros Hu.
  pose proof (Hcc := on_config_changed_snap_config (env host)). cbv zeta in Hcc.
  destruct event as [| | |joined].
  - rewrite dispatch_Install. exact Hu.
  - rewrite dispatch_ConfigChanged. cbn [world].
    exact (applied_ready_step _ _ (Hcc _) Hu).
  - destruct (dispatch_EtcdAvailable host u) as (_ & _ & [H | H]);
      cbv zeta in H; rewrite H.
    + exact Hu.
    + refine (applied_ready_step _ _ (Hcc _) _). exact Hu.
  - rewrite dispatch_LxdClusterRelationJoined. cbn [world].
    apply (applied_ready_step (world u)); [|exact Hu]. left.
    apply (on_lxd_integrator_joined_frame (env host) joined (world u)).
Qed.

Lemma X15_witness :
  Obs.applied_ready
    (world (snd (dispatch ConfigChanged
                   (host_with Sample.config true [("connection_string", "")])
                   unit0))).
Proof.
  apply (X15_applied_configuration_is_ready ConfigChanged
           (host_with Sample.config true [("connection_string", "")]) unit0).
  intros cfg H. discriminate H.
Defined.




